(** * MuseumLangAPI: the request handlers of [src/main.py]

  A shallow embedding of the FastAPI application in [src/main.py]: the
  model loader [load_model], the [lifespan] start-up, and the three
  handlers [root], [identify_language] and [health_check].

  Python values are modelled as the program has them:
  - a [str] is its sequence of Unicode code points;
  - a [float] is an IEEE-754 binary64 value ([spec_float] with
    precision 53 and maximal exponent 1024);
  - raising and catching is an outcome ([Returned] / [Raised]) threaded
    with the process state through a small state-and-exception monad;
  - the module-level names [model] and [logger], the clock read by
    [datetime.now()] and the file at [MODEL_PATH] live in one [world]. *)

From Stdlib Require Import ZArith NArith List String Ascii Bool Lia.
From Stdlib Require Import DecimalString SpecFloat.
Import ListNotations.

Set Warnings "-register-all".
Local Open Scope Z_scope.

(* ================================================================= *)
(** ** Python strings *)

Module PyStr.

(** A Python [str]: the list of its code points. *)
Definition py_str := list N.

(** An ASCII literal of the source, as code points. *)
Definition of_ascii (s : string) : py_str :=
  map N_of_ascii (list_ascii_of_string s).

Definition eqb (a b : py_str) : bool :=
  if list_eq_dec N.eq_dec a b then true else false.

(** [str.isspace] on one character: the code points CPython's
    [_PyUnicode_IsWhitespace] accepts; they are what [str.strip()]
    without argument removes. *)
Definition isspace (c : N) : bool :=
  ((9 <=? c) && (c <=? 13) || (28 <=? c) && (c <=? 32)
   || (c =? 133) || (c =? 160) || (c =? 5760)
   || (8192 <=? c) && (c <=? 8202)
   || (c =? 8232) || (c =? 8233) || (c =? 8239) || (c =? 8287)
   || (c =? 12288))%N.

Fixpoint lstrip (s : py_str) : py_str :=
  match s with
  | [] => []
  | c :: r => if isspace c then lstrip r else s
  end.

Definition rstrip (s : py_str) : py_str := rev (lstrip (rev s)).

(** [s.strip()] *)
Definition strip (s : py_str) : py_str := rstrip (lstrip s).

(** [not s]: a string is falsy exactly when it is empty. *)
Definition py_not (s : py_str) : bool :=
  match s with [] => true | _ :: _ => false end.

(** [s[:n]] *)
Definition slice_to (n : nat) (s : py_str) : py_str := firstn n s.

(** [str(n)] for an [int]. *)
Definition of_int (n : Z) : py_str :=
  of_ascii (NilZero.string_of_int (Z.to_int n)).

End PyStr.
Export PyStr.

(* ================================================================= *)
(** ** Python floats *)

Module Float64.

Definition float64 := spec_float.
Definition prec : Z := 53.
Definition emax : Z := 1024.

(** The type invariant of a binary64 value. *)
Definition is_float64 (x : float64) : Prop := valid_binary prec emax x = true.

(** A decimal literal [n/d] of the source (or of a test), correctly
    rounded to binary64 as Python's parser does: [0.9] is [float_lit 9 10]. *)
Definition float_lit (n d : positive) : float64 :=
  SFdiv prec emax (S754_finite false n 0) (S754_finite false d 0).

Definition f_zero : float64 := S754_zero false.
Definition f_one : float64 := float_lit 1 1.

(** [a > b] *)
Definition gt (a b : float64) : bool := SFltb b a.
(** [a <= b] *)
Definition le (a b : float64) : bool := SFleb a b.

(** Structural equality of two binary64 values (same bits, NaN payload
    apart). *)
Definition same (a b : float64) : bool :=
  match a, b with
  | S754_zero s, S754_zero t => Bool.eqb s t
  | S754_infinity s, S754_infinity t => Bool.eqb s t
  | S754_nan, S754_nan => true
  | S754_finite s m e, S754_finite t n f =>
      Bool.eqb s t && (m =? n)%positive && (e =? f)
  | _, _ => false
  end.

(** Nearest integer to [num/den] ([den > 0]), ties to the even one. *)
Definition round_half_even (num den : Z) : Z :=
  let q := num / den in
  let r := num mod den in
  match 2 * r ?= den with
  | Lt => q
  | Gt => q + 1
  | Eq => if Z.even q then q else q + 1
  end.

(** The number of hundredths nearest to the exact value [m * 2^e]. *)
Definition hundredths (m : positive) (e : Z) : Z :=
  if 0 <=? e then Z.pos m * 2 ^ e * 100
  else round_half_even (Z.pos m * 100) (2 ^ (- e)).

(** [round(x, 2)] on a float: CPython prints the exact binary value
    with two digits after the point, correctly rounded and ties to
    even, and reads the decimal back, correctly rounded; NaN and the
    infinities round to themselves and a result of zero keeps the sign. *)
Definition py_round2 (x : float64) : float64 :=
  match x with
  | S754_finite s m e =>
      match hundredths m e with
      | Z.pos k => SFdiv prec emax (S754_finite s k 0) (S754_finite false 100 0)
      | _ => S754_zero s
      end
  | _ => x
  end.

(** The float nearest to [k] hundredths, with the sign [s]. *)
Definition hundredth_float (s : bool) (k : Z) : float64 :=
  match k with
  | Z.pos p => SFdiv prec emax (S754_finite s p 0) (S754_finite false 100 0)
  | _ => S754_zero s
  end.

(** Where a float that is not NaN stands in the order of [SFcompare]:
    its class (from minus infinity to plus infinity), then its exponent,
    then its mantissa. *)
Definition rank (x : float64) : Z * Z * Z :=
  match x with
  | S754_infinity true => (-2, 0, 0)
  | S754_finite true m e => (-1, - e, - Z.pos m)
  | S754_zero _ => (0, 0, 0)
  | S754_nan => (0, 0, 0)
  | S754_finite false m e => (1, e, Z.pos m)
  | S754_infinity false => (2, 0, 0)
  end.

Definition lex_compare (a b : Z * Z * Z) : comparison :=
  match fst (fst a) ?= fst (fst b) with
  | Eq => match snd (fst a) ?= snd (fst b) with
          | Eq => snd a ?= snd b
          | c => c
          end
  | c => c
  end.

Definition not_nan (x : float64) : Prop := x <> S754_nan.

(** Every number of hundredths from 0 to 100. *)
Definition upto100 : list Z := map Z.of_nat (seq 0 101).

(** What is checked of each of them: the float lies between 0 and 1 and
    rounds to itself. *)
Definition hundredth_ok (k : Z) : bool :=
  let c := hundredth_float false k in
  le f_zero c && le c f_one && same (py_round2 c) c.

(** The loop of the builtin [max] after its first item: an item
    replaces the running maximum when [item > maxitem]. *)
Definition max_step (maxitem item : float64) : float64 :=
  if gt item maxitem then item else maxitem.

End Float64.
Export Float64.

(* ================================================================= *)
(** ** Exceptions *)

Module PyExn.

(** The classes under Python's [Exception] that the program names or
    that its operations raise, and user classes derived from them.  An
    error raised by a method of the classifier is an instance of one of
    them.  [KeyboardInterrupt] and [SystemExit], which are not under
    [Exception], end the process and not a request; they are not part of
    this model. *)
Inductive exn_class : Type :=
| Exception_
| AttributeError
| RuntimeError
| NotImplementedError
| LookupError
| IndexError
| ValueError
| TypeError
| OSError
| FileNotFoundError
| PickleError
| UnpicklingError
| Derived (name : string) (base : exn_class).

Fixpoint class_eqb (a b : exn_class) : bool :=
  match a, b with
  | Exception_, Exception_ | AttributeError, AttributeError
  | RuntimeError, RuntimeError | NotImplementedError, NotImplementedError
  | LookupError, LookupError | IndexError, IndexError
  | ValueError, ValueError | TypeError, TypeError
  | OSError, OSError | FileNotFoundError, FileNotFoundError
  | PickleError, PickleError | UnpicklingError, UnpicklingError => true
  | Derived n a', Derived m b' => String.eqb n m && class_eqb a' b'
  | _, _ => false
  end.

(** The class and its ancestors, as in [cls.__mro__] ([object] and
    [BaseException] left out). *)
Fixpoint mro (c : exn_class) : list exn_class :=
  match c with
  | Exception_ => [Exception_]
  | NotImplementedError => [NotImplementedError; RuntimeError; Exception_]
  | IndexError => [IndexError; LookupError; Exception_]
  | FileNotFoundError => [FileNotFoundError; OSError; Exception_]
  | UnpicklingError => [UnpicklingError; PickleError; Exception_]
  | Derived _ base => c :: mro base
  | _ => [c; Exception_]
  end.

Definition issubclass (c target : exn_class) : bool :=
  existsb (class_eqb target) (mro c).

(** A raised exception: an instance [cls(msg)], whose [str] is [msg],
    or FastAPI's [HTTPException(status_code=..., detail=...)]. *)
Inductive py_exn : Type :=
| Exc (cls : exn_class) (msg : py_str)
| HTTPExc (status_code : Z) (detail : py_str).

(** [isinstance(e, target)]; [HTTPException] derives from [Exception]
    and from none of the other classes above. *)
Definition isinstance (e : py_exn) (target : exn_class) : bool :=
  match e with
  | Exc c _ => issubclass c target
  | HTTPExc _ _ => class_eqb target Exception_
  end.

(** [str(e)] *)
Definition str_of (e : py_exn) : py_str :=
  match e with
  | Exc _ msg => msg
  | HTTPExc s d => of_int s ++ of_ascii ": " ++ d
  end.

(** What a call gives: a value, or a raised exception. *)
Inductive outcome (A : Type) : Type :=
| Returned (a : A)
| Raised (e : py_exn).
Arguments Returned {A} a.
Arguments Raised {A} e.

End PyExn.
Export PyExn.

(* ================================================================= *)
(** ** The process state *)

Module World.

(** A value the handlers build or the classifier hands over as a label:
    [None], an [int], a [str], a [float], or a [dict] whose items keep
    their insertion order. *)
Inductive py_value : Type :=
| VNone
| VInt (n : Z)
| VStr (s : py_str)
| VFloat (x : float64)
| VDict (items : list (py_str * py_value)).

(** The keys of a [dict], in order; the value under a key. *)
Definition dict_keys (v : py_value) : list py_str :=
  match v with VDict items => map fst items | _ => [] end.

Definition dict_get (key : py_str) (v : py_value) : option py_value :=
  match v with
  | VDict items =>
      match find (fun kv => PyStr.eqb (fst kv) key) items with
      | Some kv => Some (snd kv)
      | None => None
      end
  | _ => None
  end.

(** The type of the sequences a classifier returns: a Python [list] or a
    numpy [ndarray].  It decides the text of the [IndexError] raised by
    indexing an empty one. *)
Inductive seq_type : Type := PyList | NdArray.

(** A sequence as an object: its type and its items. *)
Definition py_seq (A : Type) : Type := (seq_type * list A)%type.

(** The classifier unpickled from the model file.  [predict] and
    [predict_proba] take a sequence of texts; each call returns or
    raises.  The labels [predict] returns are whatever values the
    classifier was trained with, strings or not.  A classifier without
    the [predict_proba] attribute has [None] there. *)
Record classifier : Type := {
  predict : list py_str -> outcome (list py_value);
  predict_proba : option (list py_str -> outcome (list (list float64)));
  returns : seq_type
}.

(** What sits at [MODEL_PATH]: nothing, or a file on which [open] and
    [pickle.load] return a classifier or raise. *)
Inductive file_state : Type :=
| Missing
| Present (unpickled : outcome classifier).

Inductive level : Type := INFO | WARNING | ERROR.

(** A piece of an f-string: literal text, or an interpolated value that
    the logger renders with [repr]. *)
Inductive fragment : Type :=
| FText (s : py_str)
| FRepr (v : py_value).

Record log_record : Type := { lvl : level; message : list fragment }.

(** A call that reached the classifier (kept to state which requests
    invoke it). *)
Inductive clf_call : Type :=
| CallPredict (texts : list py_str)
| CallPredictProba (texts : list py_str).

(** [datetime.datetime], naive (no [tzinfo]). *)
Record datetime : Type := {
  year : Z; month : Z; day : Z;
  hour : Z; minute : Z; second : Z; microsecond : Z
}.

Record world : Type := {
  model : option classifier;     (* the global [model]; [None] until start-up *)
  log : list log_record;         (* what [logger] has written, oldest first *)
  calls : list clf_call;         (* classifier invocations, oldest first *)
  clock : datetime;              (* what [datetime.now()] reads *)
  MODEL_PATH : py_str;           (* the constant computed at import *)
  model_file : file_state        (* the file system at [MODEL_PATH] *)
}.

Definition with_log (w : world) (l : list log_record) : world :=
  {| model := model w; log := l; calls := calls w;
     clock := clock w; MODEL_PATH := MODEL_PATH w;
   model_file := model_file w |}.

Definition with_calls (w : world) (c : list clf_call) : world :=
  {| model := model w; log := log w; calls := c;
     clock := clock w; MODEL_PATH := MODEL_PATH w;
   model_file := model_file w |}.

Definition with_model (w : world) (m : option classifier) : world :=
  {| model := m; log := log w; calls := calls w;
     clock := clock w; MODEL_PATH := MODEL_PATH w;
   model_file := model_file w |}.

End World.
Export World.

(* ================================================================= *)
(** ** Statements: state and exceptions *)

Module Py.

(** A Python computation: from a state to an outcome and a state.  The
    state reached when an exception is raised is kept. *)
Definition M (A : Type) : Type := world -> outcome A * world.

Definition ret {A} (a : A) : M A := fun w => (Returned a, w).

Definition bind {A B} (c : M A) (k : A -> M B) : M B :=
  fun w =>
    match c w with
    | (Returned a, w') => k a w'
    | (Raised e, w') => (Raised e, w')
    end.

(** [raise e] *)
Definition raise {A} (e : py_exn) : M A := fun w => (Raised e, w).

(** [try: body  except <classes> as e: handler(e)]: an exception of
    [body] that [catches] accepts runs the handler, any other goes on. *)
Definition try_except {A} (body : M A) (catches : py_exn -> bool)
           (handler : py_exn -> M A) : M A :=
  fun w =>
    match body w with
    | (Returned a, w') => (Returned a, w')
    | (Raised e, w') => if catches e then handler e w' else (Raised e, w')
    end.

(** A call whose result does not depend on the state. *)
Definition lift {A} (o : outcome A) : M A := fun w => (o, w).

Definition gets {A} (f : world -> A) : M A := fun w => (Returned (f w), w).

Definition modify (f : world -> world) : M unit := fun w => (Returned tt, f w).

End Py.
Export Py.

Declare Scope py_scope.
Delimit Scope py_scope with py.
Notation "x <- c ;; k" := (bind c (fun x => k))
(at level 61, c at next level, right associativity) : py_scope.
Notation "c ;; k" := (bind c (fun _ => k))
(at level 61, right associativity) : py_scope.
Local Open Scope py_scope.

(* ================================================================= *)
(** ** Builtins and library calls the handlers use *)

Module Builtins.

(** [logger.info(msg)], [logger.warning(msg)], [logger.error(msg)]:
    one record appended to the log. *)
Definition logger_log (l : level) (msg : list fragment) : M unit :=
  modify (fun w => with_log w (log w ++ [{| lvl := l; message := msg |}])).
Definition logger_info := logger_log INFO.
Definition logger_warning := logger_log WARNING.
Definition logger_error := logger_log ERROR.

(** The text of the [IndexError] for index 0 of an empty sequence. *)
Definition index_error_msg (t : seq_type) : py_str :=
  match t with
  | PyList => of_ascii "list index out of range"
  | NdArray => of_ascii "index 0 is out of bounds for axis 0 with size 0"
  end.

(** [seq[0]]: [IndexError] on an empty sequence. *)
Definition getitem0 {A} (seq : py_seq A) : M A :=
  match snd seq with
  | x :: _ => ret x
  | [] => raise (Exc IndexError (index_error_msg (fst seq)))
  end.

(** The sequence a method of [clf] returned, as the object it is. *)
Definition as_seq {A} (clf : classifier) (o : outcome (list A)) : outcome (py_seq A) :=
  match o with
  | Returned items => Returned (returns clf, items)
  | Raised e => Raised e
  end.

(** [max(row)] over floats: [ValueError] on an empty row, else the
    first item and then every later item that is [>] the running one. *)
Definition py_max (row : list float64) : M float64 :=
  match row with
  | x :: rest => ret (fold_left max_step rest x)
  | [] => raise (Exc ValueError (of_ascii "max() arg is an empty sequence"))
  end.

(** Looking up an attribute the object does not have. *)
Definition no_attribute (type_name attr : string) : py_exn :=
  Exc AttributeError
      (of_ascii ("'" ++ type_name ++ "' object has no attribute '" ++ attr ++ "'")).

(** [model.predict(texts)] on the global [model]. *)
Definition model_predict (texts : list py_str) : M (py_seq py_value) :=
  m <- gets model ;;
  match m with
  | None => raise (no_attribute "NoneType" "predict")
  | Some clf =>
      modify (fun w => with_calls w (calls w ++ [CallPredict texts])) ;;
      lift (as_seq clf (predict clf texts))
  end.

(** [model.predict_proba(texts)] on the global [model]. *)
Definition model_predict_proba (texts : list py_str) : M (py_seq (list float64)) :=
  m <- gets model ;;
  match m with
  | None => raise (no_attribute "NoneType" "predict_proba")
  | Some clf =>
      match predict_proba clf with
      | None => raise (no_attribute "Pipeline" "predict_proba")
      | Some proba =>
          modify (fun w => with_calls w (calls w ++ [CallPredictProba texts])) ;;
          lift (as_seq clf (proba texts))
      end
  end.

(** Two decimal digits, zero padded: [%02d] for [0 <= n < 100]. *)
Definition digit (n : Z) : N := (48 + Z.to_N (n mod 10))%N.
Definition pad2 (n : Z) : py_str := [digit (n / 10); digit n].
Definition pad4 (n : Z) : py_str :=
  [digit (n / 1000); digit (n / 100); digit (n / 10); digit n].
Definition pad6 (n : Z) : py_str :=
  [digit (n / 100000); digit (n / 10000); digit (n / 1000);
   digit (n / 100); digit (n / 10); digit n].

(** [d.isoformat()] of a naive [datetime]:
    [YYYY-MM-DDTHH:MM:SS], then [.ffffff] unless the microsecond is 0. *)
Definition isoformat (d : datetime) : py_str :=
  pad4 (year d) ++ of_ascii "-" ++ pad2 (month d) ++ of_ascii "-" ++ pad2 (day d)
  ++ of_ascii "T"
  ++ pad2 (hour d) ++ of_ascii ":" ++ pad2 (minute d) ++ of_ascii ":" ++ pad2 (second d)
  ++ (if microsecond d =? 0 then [] else of_ascii "." ++ pad6 (microsecond d)).

(** [datetime.now()] *)
Definition datetime_now : M datetime := gets clock.

End Builtins.
Export Builtins.

(* ================================================================= *)
(** ** The application: [src/main.py] *)

Module App.

(** [os.path.exists(MODEL_PATH)] *)
Definition os_path_exists : M bool :=
  st <- gets model_file ;;
  ret (match st with Missing => false | Present _ => true end).

(** [with open(MODEL_PATH, 'rb') as model_file: pickle.load(model_file)] *)
Definition pickle_load_file : M classifier :=
  st <- gets model_file ;;
  path <- gets MODEL_PATH ;;
  match st with
  | Present unpickled => lift unpickled
  | Missing =>
      raise (Exc FileNotFoundError
                 (of_ascii "[Errno 2] No such file or directory: '" ++ path ++ of_ascii "'"))
  end.

(** [load_model()], lines 38-51. *)
Definition load_model : M classifier :=
  try_except
    (found <- os_path_exists ;;
     (if negb found then
        path <- gets MODEL_PATH ;;
        let error_msg := of_ascii "File del modello non trovato in: " ++ path in
        logger_error [FText error_msg] ;;
        raise (Exc FileNotFoundError error_msg)
      else ret tt) ;;
     loaded_model <- pickle_load_file ;;
     logger_info [FText (of_ascii "Modello caricato con successo")] ;;
     ret loaded_model)
    (fun e => isinstance e Exception_)
    (fun e =>
       logger_error
         [FText (of_ascii "Errore durante il caricamento del modello: " ++ str_of e)] ;;
       raise (Exc RuntimeError
                  (of_ascii "Impossibile caricare il modello: " ++ str_of e))).

(** [lifespan(app)] up to its [yield]: what runs before the server
    accepts requests. *)
Definition lifespan_startup : M unit :=
  loaded <- load_model ;;
  modify (fun w => with_model w (Some loaded)) ;;
  logger_info [FText (of_ascii "API inizializzata e pronta")].

(** [lifespan(app)] after its [yield]. *)
Definition lifespan_shutdown : M unit :=
  logger_info [FText (of_ascii "Spegnimento dell'API")].

(** [class LanguageRequest(BaseModel)] *)
Record LanguageRequest : Type := { text : py_str }.

(** [class LanguageResponse(BaseModel)] *)
Record LanguageResponse : Type := {
  language_code : py_str;
  confidence : float64
}.

(** [root()], lines 82-92. *)
Definition root : M py_value :=
  ret (VDict
         [(of_ascii "message", VStr (of_ascii "Benvenuto all'API di MuseumLangID"));
          (of_ascii "version", VStr (of_ascii "1.0.0"));
          (of_ascii "endpoints",
           VDict [(of_ascii "identify_language", VStr (of_ascii "/identify-language"));
                  (of_ascii "health", VStr (of_ascii "/health"));
                  (of_ascii "docs", VStr (of_ascii "/docs"))])]).

(** The detail of the 400 error, line 103: "Il testo non pu. essere
    vuoto", where the dot stands for U+00F2, o with grave accent. *)
Definition empty_text_msg : py_str :=
  of_ascii "Il testo non pu" ++ [242%N] ++ of_ascii " essere vuoto".

(** The classes of the inner [except (AttributeError, NotImplementedError)]. *)
Definition no_probability (e : py_exn) : bool :=
  isinstance e AttributeError || isinstance e NotImplementedError.

(** [identify_language(request)], lines 96-131. *)
Definition identify_language (request : LanguageRequest) : M py_value :=
  logger_info [FText (of_ascii "Richiesta ricevuta: ");
               FText (slice_to 100 (text request)); FText (of_ascii "...")] ;;
  if py_not (text request) || PyStr.eqb (strip (text request)) [] then
    let error_msg := empty_text_msg in
    logger_warning [FText error_msg] ;;
    raise (HTTPExc 400 error_msg)
  else
    try_except
      (let text_to_predict := [text request] in
       predicted_language <- model_predict text_to_predict ;;
       confidence <-
         try_except
           (probabilities <- model_predict_proba text_to_predict ;;
            row <- getitem0 probabilities ;;
            py_max row)
           no_probability
           (fun _ => ret (float_lit 9 10)) ;;
       language_code <- getitem0 predicted_language ;;
       let response :=
         VDict [(of_ascii "language_code", language_code);
                (of_ascii "confidence", VFloat (py_round2 confidence))] in
       logger_info [FText (of_ascii "Risposta: "); FRepr response] ;;
       ret response)
      (fun e => isinstance e Exception_)
      (fun e =>
         let error_msg :=
           of_ascii "Errore durante l'identificazione della lingua: " ++ str_of e in
         logger_error [FText error_msg] ;;
         raise (HTTPExc 500 error_msg)).

(** [health_check()], lines 135-140. *)
Definition health_check : M py_value :=
  now <- datetime_now ;;
  ret (VDict [(of_ascii "status", VStr (of_ascii "healthy"));
              (of_ascii "timestamp", VStr (isoformat now))]).

End App.
Export App.

(* ================================================================= *)
(** ** The HTTP boundary *)

Module Http.

Record http_response : Type := { status : Z; body : py_value }.

(** What FastAPI sends for the outcome of a handler declared without a
    response model: 200 with the returned value, the status and
    [{"detail": ...}] of a raised [HTTPException], and a bare 500 for any
    other exception. *)
Definition respond (o : outcome py_value) : http_response :=
  match o with
  | Returned v => {| status := 200; body := v |}
  | Raised (HTTPExc s d) =>
      {| status := s; body := VDict [(of_ascii "detail", VStr d)] |}
  | Raised (Exc _ _) =>
      {| status := 500; body := VStr (of_ascii "Internal Server Error") |}
  end.

(** One request served from state [w] by such a handler ([root] and
    [health_check]; the [Dict] annotation of the latter accepts every
    [dict]). *)
Definition serve (handler : M py_value) (w : world) : http_response * world :=
  let (o, w') := handler w in (respond o, w').

(** [response_model=LanguageResponse] of line 96: the returned [dict] is
    read as a [LanguageResponse], which wants a [str] under
    [language_code] and a [float] under [confidence] (the handler always
    puts a [float] there); any other value under [language_code], or a
    missing key, fails the validation. *)
Definition response_model (v : py_value) : option LanguageResponse :=
  match dict_get (of_ascii "language_code") v,
        dict_get (of_ascii "confidence") v with
  | Some (VStr l), Some (VFloat c) =>
      Some {| language_code := l; confidence := c |}
  | _, _ => None
  end.

(** The body sent for a validated [LanguageResponse]. *)
Definition dump (r : LanguageResponse) : py_value :=
  VDict [(of_ascii "language_code", VStr (language_code r));
         (of_ascii "confidence", VFloat (confidence r))].

(** What FastAPI sends for the outcome of [identify_language]: a returned
    value goes through [response_model] first, and one that fails it
    raises a [ResponseValidationError] that nothing handles, a bare 500;
    exceptions are answered as by [respond]. *)
Definition respond_validated (o : outcome py_value) : http_response :=
  match o with
  | Returned v =>
      match response_model v with
      | Some r => {| status := 200; body := dump r |}
      | None => {| status := 500; body := VStr (of_ascii "Internal Server Error") |}
      end
  | Raised _ => respond o
  end.

(** [POST /identify-language]: one request served from state [w]. *)
Definition post_identify_language (request : LanguageRequest) (w : world)
  : http_response * world :=
  let (o, w') := identify_language request w in (respond_validated o, w').

End Http.
Export Http.

(* ================================================================= *)
(** ** Specification side: ISO-8601 timestamps, blank texts *)

Module Iso8601.

Definition is_leap (y : Z) : bool :=
  (y mod 4 =? 0) && (negb (y mod 100 =? 0) || (y mod 400 =? 0)).

Definition days_in_month (y m : Z) : Z :=
  if m =? 2 then (if is_leap y then 29 else 28)
  else if (m =? 4) || (m =? 6) || (m =? 9) || (m =? 11) then 30
  else 31.

Definition between (lo x hi : Z) : bool := (lo <=? x) && (x <=? hi).

(** The invariant of a [datetime] object: the ranges its constructor
    enforces ([MINYEAR = 1], [MAXYEAR = 9999]). *)
Definition valid_datetime (d : datetime) : bool :=
  between 1 (year d) 9999 && between 1 (month d) 12
  && between 1 (day d) (days_in_month (year d) (month d))
  && between 0 (hour d) 23 && between 0 (minute d) 59
  && between 0 (second d) 59 && between 0 (microsecond d) 999999.

Definition digit_val (c : N) : option Z :=
  if ((48 <=? c) && (c <=? 57))%N then Some (Z.of_N c - 48) else None.

(** Reads exactly [n] decimal digits. *)
Fixpoint take_digits (n : nat) (acc : Z) (s : py_str) : option (Z * py_str) :=
  match n with
  | O => Some (acc, s)
  | S n' =>
      match s with
      | c :: r =>
          match digit_val c with
          | Some v => take_digits n' (10 * acc + v) r
          | None => None
          end
      | [] => None
      end
  end.

(** Reads the one character [c]. *)
Definition expect (c : N) (s : py_str) : option py_str :=
  match s with
  | c' :: r => if (c' =? c)%N then Some r else None
  | [] => None
  end.

(** The fraction of a second: absent, or a point and six digits. *)
Definition parse_fraction (s : py_str) : option Z :=
  match s with
  | [] => Some 0
  | _ =>
      match expect 46 s with
      | Some r =>
          match take_digits 6 0 r with
          | Some (us, []) => Some us
          | _ => None
          end
      | None => None
      end
  end.

Definition andthen {A B} (o : option A) (k : A -> option B) : option B :=
  match o with Some a => k a | None => None end.

(** A reader of the ISO-8601 extended format
    [YYYY-MM-DDThh:mm:ss[.ffffff]] (calendar date, [T], local time): the
    fields must be in range, the date must exist. *)
Definition parse_iso8601 (s : py_str) : option datetime :=
  andthen (take_digits 4 0 s) (fun '(y, s) =>
  andthen (expect 45 s) (fun s =>
  andthen (take_digits 2 0 s) (fun '(mo, s) =>
  andthen (expect 45 s) (fun s =>
  andthen (take_digits 2 0 s) (fun '(d, s) =>
  andthen (expect 84 s) (fun s =>
  andthen (take_digits 2 0 s) (fun '(h, s) =>
  andthen (expect 58 s) (fun s =>
  andthen (take_digits 2 0 s) (fun '(mi, s) =>
  andthen (expect 58 s) (fun s =>
  andthen (take_digits 2 0 s) (fun '(sec, s) =>
  andthen (parse_fraction s) (fun us =>
    let dt := {| year := y; month := mo; day := d; hour := h;
                 minute := mi; second := sec; microsecond := us |} in
    if valid_datetime dt then Some dt else None)))))))))))).

End Iso8601.
Export Iso8601.

Module Spec.

(** "Empty or whitespace-only": every character is white space. *)
Definition is_blank (s : py_str) : Prop := Forall (fun c => isspace c = true) s.

(** A probability: a binary64 value between 0 and 1. *)
Definition is_probability (x : float64) : Prop :=
  is_float64 x /\ le f_zero x = true /\ le x f_one = true.

(** A float rounded to exactly two decimals: it equals its own
    [round(_, 2)]. *)
Definition two_decimals (x : float64) : Prop :=
  py_round2 x = x.

(** The log after the first line of [identify_language]. *)
Definition received (request : LanguageRequest) (w : world) : world :=
  with_log w (log w ++ [{| lvl := INFO;
                           message := [FText (of_ascii "Richiesta ricevuta: ");
                                       FText (slice_to 100 (text request));
                                       FText (of_ascii "...")] |}]).

(** [k] is the whole number of hundredths nearest to the exact value
    [m * 2^e], the even one when two are equally near. *)
Definition nearest_hundredths (m : positive) (e k : Z) : Prop :=
  0 <= k
  /\ if 0 <=? e then k = Z.pos m * 2 ^ e * 100
     else Z.abs (2 * (Z.pos m * 100) - 2 * k * 2 ^ (- e)) <= 2 ^ (- e)
          /\ (Z.abs (2 * (Z.pos m * 100) - 2 * k * 2 ^ (- e)) = 2 ^ (- e) ->
              Z.even k = true).

(** "Rounded to 2 decimal places", said without the rounding function:
    [c] is the float that [k/100] denotes, for the whole number [k] of
    hundredths nearest to the magnitude of [x], with the sign of [x];
    zeros, infinities and NaN are left as they are. *)
Definition rounded_to_two_decimals (x c : float64) : Prop :=
  match x with
  | S754_finite s m e =>
      exists k, nearest_hundredths m e k /\ c = hundredth_float s k
  | _ => c = x
  end.

(** The [dict] built at lines 119-122 from a label and a confidence. *)
Definition response_dict (label : py_value) (confidence : float64) : py_value :=
  VDict [(of_ascii "language_code", label);
         (of_ascii "confidence", VFloat confidence)].

(** The body of a 200 answer of [/identify-language]. *)
Definition language_response (language_code : py_str) (confidence : float64) : py_value :=
  VDict [(of_ascii "language_code", VStr language_code);
         (of_ascii "confidence", VFloat confidence)].

(** The classifier offers no probability on [texts]: it has no
    [predict_proba], or the call raises an [AttributeError] or a
    [NotImplementedError]. *)
Definition lacks_probability (clf : classifier) (texts : list py_str) : Prop :=
  match predict_proba clf with
  | None => True
  | Some proba => exists e, proba texts = Raised e /\ no_probability e = true
  end.

(** The detail of the 500 answer that wraps the exception [e]. *)
Definition prediction_failure_detail (e : py_exn) : py_str :=
  of_ascii "Errore durante l'identificazione della lingua: " ++ str_of e.

(** The answer FastAPI sends for [HTTPException(status_code, detail)]. *)
Definition error_response (status_code : Z) (detail : py_str) : http_response :=
  {| status := status_code; body := VDict [(of_ascii "detail", VStr detail)] |}.

(** The classifier succeeds on [texts] with first label [l]: [predict]
    returns labels starting with the string [l], and either no probability is on
    offer or [predict_proba] returns rows whose first is a non-empty row
    of probabilities. *)
Definition classifier_succeeds (clf : classifier) (texts : list py_str)
           (l : py_str) : Prop :=
  (exists ls, predict clf texts = Returned (VStr l :: ls))
  /\ (lacks_probability clf texts
      \/ exists proba x rest rows,
           predict_proba clf = Some proba
           /\ proba texts = Returned ((x :: rest) :: rows)
           /\ Forall is_probability (x :: rest)).

(** The message of the [FileNotFoundError] that [load_model] raises on
    a missing file, and the message of the [RuntimeError] that wraps [e]. *)
Definition model_not_found_msg (w : world) : py_str :=
  of_ascii "File del modello non trovato in: " ++ MODEL_PATH w.

Definition model_load_failure_msg (e : py_exn) : py_str :=
  of_ascii "Impossibile caricare il modello: " ++ str_of e.

(** The text of the scenario, "Questo . un esempio di testo.", where the
    dot stands for U+00E8, e with grave accent. *)
Definition questo : py_str :=
  of_ascii "Questo " ++ [232%N] ++ of_ascii " un esempio di testo.".

End Spec.
Export Spec.

(* ================================================================= *)
(** ** States and classifiers used in the examples *)

Module Samples.

Definition w_unloaded : world :=
  {| model := None; log := []; calls := [];
     clock := {| year := 2024; month := 2; day := 29; hour := 23;
                 minute := 59; second := 7; microsecond := 1500 |};
     MODEL_PATH := of_ascii "/srv/app/models/language_detection_pipeline.pkl";
     model_file := Missing |}.

(** A classifier without [predict_proba] that always answers ["IT"]. *)
Definition clf_point : classifier :=
  {| predict := fun texts => Returned (map (fun _ => VStr (of_ascii "IT")) texts);
     predict_proba := None;
     returns := NdArray |}.

(** A classifier that answers ["IT"] with probabilities [0.02, 0.98]. *)
Definition clf_it : classifier :=
  {| predict := fun texts => Returned (map (fun _ => VStr (of_ascii "IT")) texts);
     predict_proba :=
       Some (fun texts =>
               Returned (map (fun _ => [float_lit 2 100; float_lit 98 100]) texts));
     returns := NdArray |}.

(** An object that is not a classifier in the sense of the data model:
    its [predict_proba] returns [1.5], which is no probability. *)
Definition clf_out_of_contract : classifier :=
  {| predict := fun texts => Returned (map (fun _ => VStr (of_ascii "IT")) texts);
     predict_proba :=
       Some (fun texts => Returned (map (fun _ => [float_lit 15 10]) texts));
     returns := NdArray |}.

(** A classifier whose [predict] raises a [ValueError]. *)
Definition clf_broken : classifier :=
  {| predict := fun _ => Raised (Exc ValueError (of_ascii "empty vocabulary"));
     predict_proba := None;
     returns := NdArray |}.

(** A classifier trained with integer labels: it always answers [3]. *)
Definition clf_int_labels : classifier :=
  {| predict := fun texts => Returned (map (fun _ => VInt 3) texts);
     predict_proba := None;
     returns := NdArray |}.

(** A state whose model file exists and cannot be unpickled. *)
Definition w_corrupt : world :=
  {| model := None; log := []; calls := [];
     clock := clock w_unloaded; MODEL_PATH := MODEL_PATH w_unloaded;
     model_file := Present (Raised (Exc UnpicklingError
                                        (of_ascii "invalid load key, 'x'."))) |}.

Definition w_ready (clf : classifier) : world :=
  with_model w_unloaded (Some clf).

End Samples.
Export Samples.

(* ================================================================= *)
(** ** Log records and traces of the handlers *)

Module Traces.

Definition info (msg : list fragment) : log_record :=
  {| lvl := INFO; message := msg |}.
Definition warning (msg : list fragment) : log_record :=
  {| lvl := WARNING; message := msg |}.
Definition error (msg : list fragment) : log_record :=
  {| lvl := ERROR; message := msg |}.

(** The record of line 99: the first 100 characters of the text between
    "Richiesta ricevuta: " and "...". *)
Definition request_record (request : LanguageRequest) : log_record :=
  info [FText (of_ascii "Richiesta ricevuta: ");
        FText (slice_to 100 (text request)); FText (of_ascii "...")].

(** The level of the last record the handler writes, by how it ends:
    INFO when it returns, WARNING when it raises the 400 error, ERROR
    when it raises anything else. *)
Definition level_of_outcome (o : outcome py_value) : level :=
  match o with
  | Returned _ => INFO
  | Raised (HTTPExc 400 _) => WARNING
  | Raised _ => ERROR
  end.

(** The calls a non-blank request makes on a loaded classifier:
    [predict] on the one text, then [predict_proba] on it when [predict]
    returned and the attribute exists. *)
Definition calls_of_request (clf : classifier) (t : py_str) : list clf_call :=
  CallPredict [t]
  :: match predict clf [t], predict_proba clf with
     | Returned _, Some _ => [CallPredictProba [t]]
     | _, _ => []
     end.

(** The state after a sequence of requests to [/identify-language]. *)
Fixpoint serve_all (requests : list LanguageRequest) (w : world) : world :=
  match requests with
  | [] => w
  | r :: rs => serve_all rs (snd (post_identify_language r w))
  end.

(** What a text needs from the classifier to be answered: a sequence of
    labels whose first is a string, and either no probability on offer or
    rows whose first is not empty. *)
Definition can_answer (clf : classifier) (t : py_str) : Prop :=
  (exists l ls, predict clf [t] = Returned (VStr l :: ls))
  /\ (lacks_probability clf [t]
      \/ exists proba x rest rows,
           predict_proba clf = Some proba
           /\ proba [t] = Returned ((x :: rest) :: rows)).

(** The two records of a successful [load_model] and start-up. *)
Definition model_loaded_record : log_record :=
  info [FText (of_ascii "Modello caricato con successo")].
Definition api_ready_record : log_record :=
  info [FText (of_ascii "API inizializzata e pronta")].

(** The records of a failed [load_model]. *)
Definition load_error_record (e : py_exn) : log_record :=
  error [FText (of_ascii "Errore durante il caricamento del modello: " ++ str_of e)].

(** A classifier whose [predict] is not implemented. *)
Definition clf_abstract : classifier :=
  {| predict := fun _ => Raised (Exc NotImplementedError []);
     predict_proba := None;
     returns := NdArray |}.

(** A state whose model file unpickles to [clf]. *)
Definition w_installed (clf : classifier) : world :=
  {| model := None; log := []; calls := [];
     clock := clock w_unloaded; MODEL_PATH := MODEL_PATH w_unloaded;
     model_file := Present (Returned clf) |}.

End Traces.
Export Traces.
(* ================================================================= *)
(** * Properties *)

(** ** The emptiness test of [identify_language] *)

#[local] Opaque of_ascii slice_to float_lit py_round2 fold_left.

Section Strip.

Lemma lstrip_nil_iff (s : py_str) : lstrip s = [] <-> is_blank s.
Proof.
  unfold is_blank. induction s as [|c r IH]; simpl.
  - split; [constructor | reflexivity].
  - destruct (isspace c) eqn:Hc.
    + rewrite IH. split; intro H.
      * constructor; assumption.
      * inversion H; assumption.
    + split; [discriminate|]. intro H. inversion H; congruence.
Qed.

Lemma lstrip_head (s : py_str) c r : lstrip s = c :: r -> isspace c = false.
Proof.
  induction s as [|a s IH]; simpl; [discriminate|].
  destruct (isspace a) eqn:Ha; [exact IH|].
  intro H. inversion H; subst; assumption.
Qed.

Lemma is_blank_rev (s : py_str) : is_blank (rev s) <-> is_blank s.
Proof.
  unfold is_blank. rewrite !Forall_forall.
  split; intros H c Hc; apply H.
  - apply in_rev. rewrite rev_involutive. exact Hc.
  - apply in_rev. exact Hc.
Qed.

Lemma rstrip_nil_iff (s : py_str) : rstrip s = [] <-> is_blank s.
Proof.
  unfold rstrip. rewrite <- is_blank_rev, <- lstrip_nil_iff.
  split; intro H.
  - apply (f_equal (@rev N)) in H. rewrite rev_involutive in H. exact H.
  - rewrite H. reflexivity.
Qed.

Lemma strip_nil_iff (s : py_str) : strip s = [] <-> is_blank s.
Proof.
  unfold strip. rewrite rstrip_nil_iff, <- (lstrip_nil_iff s).
  destruct (lstrip s) as [|c r] eqn:E.
  - split; trivial. intros _. constructor.
  - split; [|discriminate]. intro H. apply lstrip_head in E.
    inversion H; congruence.
Qed.

(** The test of line 102, [not text or text.strip() == ""], is true
    exactly on the blank texts. *)
Lemma blank_test_iff (s : py_str) :
  py_not s || PyStr.eqb (strip s) [] = true <-> is_blank s.
Proof.
  rewrite <- strip_nil_iff. unfold PyStr.eqb.
  destruct (list_eq_dec N.eq_dec (strip s) []) as [E|E].
  - rewrite orb_true_r. tauto.
  - rewrite orb_false_r. destruct s; simpl; [contradiction E; reflexivity|].
    split; [discriminate | contradiction].
Qed.

Lemma blank_test_false (s : py_str) :
  ~ is_blank s -> py_not s || PyStr.eqb (strip s) [] = false.
Proof.
  intro H. destruct (py_not s || PyStr.eqb (strip s) []) eqn:E; trivial.
  apply blank_test_iff in E. contradiction.
Qed.

End Strip.

(* ================================================================= *)
(** ** Running the handlers *)

Ltac unfold_py :=
  unfold identify_language, health_check, root, load_model, lifespan_startup,
    os_path_exists, pickle_load_file, datetime_now,
    model_predict, model_predict_proba, as_seq, getitem0, py_max,
    logger_info, logger_warning, logger_error, logger_log,
    try_except, bind, ret, raise, lift, gets, modify in *.

Lemma post_fst (request : LanguageRequest) (w : world) :
  fst (post_identify_language request w)
  = respond_validated (fst (identify_language request w)).
Proof.
  unfold post_identify_language. destruct (identify_language request w); reflexivity.
Qed.

Lemma post_snd (request : LanguageRequest) (w : world) :
  snd (post_identify_language request w) = snd (identify_language request w).
Proof.
  unfold post_identify_language. destruct (identify_language request w); reflexivity.
Qed.

(** A returned [dict] whose label is a string passes [response_model] and
    is sent as it is. *)
Lemma respond_validated_str (l : py_str) (c : float64) :
  respond_validated (Returned (response_dict (VStr l) c))
  = {| status := 200; body := language_response l c |}.
Proof. reflexivity. Qed.

Section BlankRequests.

Variable request : LanguageRequest.
Hypothesis blank : is_blank (text request).

(** On a blank text the handler logs the request, logs a warning and
    raises the 400 error; nothing else happens. *)
Lemma identify_language_blank (w : world) :
  identify_language request w =
  (Raised (HTTPExc 400 empty_text_msg),
   with_log w (log (received request w)
               ++ [{| lvl := WARNING; message := [FText empty_text_msg] |}])).
Proof.
  apply blank_test_iff in blank.
  unfold_py. simpl. rewrite blank. reflexivity.
Qed.

End BlankRequests.

(** C2. For every empty or whitespace-only text, POST /identify-language
    fails with status 400 (the handler raises the 400 [HTTPException]
    with the fixed detail) and the classifier is never invoked: the list
    of classifier calls is the same after the request as before. *)
Theorem blank_text_400_classifier_untouched :
  forall (request : LanguageRequest) (w : world),
    is_blank (text request) ->
    fst (identify_language request w) = Raised (HTTPExc 400 empty_text_msg)
    /\ status (fst (post_identify_language request w)) = 400
    /\ calls (snd (post_identify_language request w)) = calls w.
Proof.
  intros request w Hb. unfold post_identify_language.
  rewrite (identify_language_blank request Hb w). simpl. auto.
Qed.

Lemma blank_text_400_classifier_untouched_witness :
  fst (identify_language {| text := [32; 9; 160]%N |} w_unloaded)
  = Raised (HTTPExc 400 empty_text_msg)
  /\ status (fst (post_identify_language {| text := [32; 9; 160]%N |} w_unloaded)) = 400
  /\ calls (snd (post_identify_language {| text := [32; 9; 160]%N |} w_unloaded))
     = calls w_unloaded.
Proof.
  apply (blank_text_400_classifier_untouched {| text := [32; 9; 160]%N |} w_unloaded).
  unfold is_blank. simpl. repeat constructor.
Defined.

(** C9. For a blank text the 400 error is produced whatever the model:
    with the global [model] still [None] the handler raises the 400
    [HTTPException]; with any other model (one whose calls would raise
    included) it does exactly the same; and the answer is never a 500. *)
Theorem blank_text_400_before_any_model_use :
  forall (request : LanguageRequest) (w : world),
    is_blank (text request) ->
    fst (identify_language request (with_model w None))
    = Raised (HTTPExc 400 empty_text_msg)
    /\ (forall m : option classifier,
          fst (identify_language request (with_model w m))
          = fst (identify_language request (with_model w None)))
    /\ status (fst (post_identify_language request w)) <> 500.
Proof.
  intros request w Hb. repeat split.
  - rewrite identify_language_blank by assumption. reflexivity.
  - intro m. rewrite !identify_language_blank by assumption. reflexivity.
  - unfold post_identify_language. rewrite identify_language_blank by assumption.
    simpl. discriminate.
Qed.

Lemma blank_text_400_before_any_model_use_witness :
  fst (identify_language {| text := [] |} (with_model w_unloaded None))
  = Raised (HTTPExc 400 empty_text_msg)
  /\ (forall m : option classifier,
        fst (identify_language {| text := [] |} (with_model w_unloaded m))
        = fst (identify_language {| text := [] |} (with_model w_unloaded None)))
  /\ status (fst (post_identify_language {| text := [] |} w_unloaded)) <> 500.
Proof.
  apply (blank_text_400_before_any_model_use {| text := [] |} w_unloaded).
  constructor.
Defined.

(* ================================================================= *)
(** ** The prediction path *)

Lemma mro_ends_in_Exception (c : exn_class) : In Exception_ (mro c).
Proof.
  induction c; simpl; auto 6.
Qed.

(** [except Exception] catches every exception of the model. *)
Lemma isinstance_Exception (e : py_exn) : isinstance e Exception_ = true.
Proof.
  destruct e as [c msg | s d]; simpl; [|reflexivity].
  unfold issubclass. apply existsb_exists.
  exists Exception_. split; [apply mro_ends_in_Exception | reflexivity].
Qed.

(** Case analysis on the innermost scrutinee of the goal. *)
Ltac break_inner :=
  match goal with
  | |- context [match ?x with _ => _ end] =>
      lazymatch x with
      | context [match _ with _ => _ end] => fail
      | _ => destruct x eqn:?
      end
  end.

Ltac run_handler request Hnb :=
  unfold_py; simpl;
  rewrite (blank_test_false (text request) Hnb);
  repeat rewrite isinstance_Exception; simpl.

Ltac same_classifier :=
  repeat match goal with
    | H : Some _ = Some _ |- _ => injection H as H; subst
    | H : Some _ = None |- _ => discriminate H
    | H : None = Some _ |- _ => discriminate H
    | H : Returned _ = Returned _ |- _ => injection H as H; subst
    | H : Returned _ = Raised _ |- _ => discriminate H
    | H : Raised _ = Returned _ |- _ => discriminate H
    | H : Raised _ = Raised _ |- _ => injection H as H; subst
    | H : ?a = ?b, H' : ?a = ?c |- _ => rewrite H in H'
    end.

Ltac all_paths :=
  repeat (break_inner; simpl; rewrite ?isinstance_Exception; simpl;
          same_classifier; try reflexivity; try congruence).

Section Prediction.

Variable request : LanguageRequest.
Hypothesis nonblank : ~ is_blank (text request).

Variable w : world.

(** The global [model] is still [None]: the attribute lookup fails inside
    the outer [try]. *)
Lemma path_model_none :
  model w = None ->
  fst (identify_language request w)
  = Raised (HTTPExc 500 (prediction_failure_detail (no_attribute "NoneType" "predict"))).
Proof.
  intro Hm. run_handler request nonblank. rewrite Hm. simpl.
  rewrite ?isinstance_Exception. reflexivity.
Qed.

Variable clf : classifier.
Hypothesis loaded : model w = Some clf.

(** [predict] raises: whatever the class, the outer handler turns it
    into the 500 error. *)
Lemma path_predict_raises (e : py_exn) :
  predict clf [text request] = Raised e ->
  fst (identify_language request w)
  = Raised (HTTPExc 500 (prediction_failure_detail e)).
Proof.
  intro Hp. run_handler request nonblank. rewrite loaded. simpl.
  rewrite Hp. simpl. rewrite isinstance_Exception. reflexivity.
Qed.

(** [predict_proba] raises an exception the inner handler lets through. *)
Lemma path_proba_raises (labels : list py_value) proba (e : py_exn) :
  predict clf [text request] = Returned labels ->
  predict_proba clf = Some proba ->
  proba [text request] = Raised e ->
  no_probability e = false ->
  fst (identify_language request w)
  = Raised (HTTPExc 500 (prediction_failure_detail e)).
Proof.
  intros Hp Hpp Hr Hn. run_handler request nonblank. rewrite loaded. simpl.
  rewrite Hp. simpl. rewrite loaded. simpl. rewrite Hpp. simpl.
  rewrite Hr. simpl. rewrite Hn. rewrite ?isinstance_Exception. reflexivity.
Qed.

(** No probability on offer: the confidence stays at its initial [0.9]. *)
Lemma path_fallback (l : py_value) (ls : list py_value) :
  predict clf [text request] = Returned (l :: ls) ->
  lacks_probability clf [text request] ->
  fst (identify_language request w)
  = Returned (response_dict l (py_round2 (float_lit 9 10))).
Proof.
  intros Hp Hl. run_handler request nonblank. rewrite loaded. simpl.
  rewrite Hp. simpl. rewrite loaded. simpl.
  unfold lacks_probability in Hl.
  destruct (predict_proba clf) as [proba|]; simpl.
  - destruct Hl as [e [Hr Hn]]. rewrite Hr. simpl. rewrite Hn. reflexivity.
  - reflexivity.
Qed.

(** A first row with at least one probability: the confidence is the
    result of [max] on it. *)
Lemma path_max (l : py_value) (ls : list py_value) proba
      (x : float64) (rest : list float64) (rows : list (list float64)) :
  predict clf [text request] = Returned (l :: ls) ->
  predict_proba clf = Some proba ->
  proba [text request] = Returned ((x :: rest) :: rows) ->
  fst (identify_language request w)
  = Returned (response_dict l (py_round2 (fold_left max_step rest x))).
Proof.
  intros Hp Hpp Hr. run_handler request nonblank. rewrite loaded. simpl.
  rewrite Hp. simpl. rewrite loaded. simpl. rewrite Hpp. simpl.
  rewrite Hr. reflexivity.
Qed.

End Prediction.

(** The handler never assigns the global [model]. *)
Lemma identify_language_keeps_model (request : LanguageRequest) (w : world) :
  model (snd (identify_language request w)) = model w.
Proof.
  unfold_py; simpl.
  destruct (py_not (text request) || PyStr.eqb (strip (text request)) []);
    simpl; [reflexivity|].
  all_paths.
Qed.

(** The outcome of the handler is a function of the text and of the
    global [model] alone: the log and the record of calls do not
    influence it. *)
Lemma identify_language_outcome_indep (request : LanguageRequest) (w1 w2 : world) :
  model w1 = model w2 ->
  fst (identify_language request w1) = fst (identify_language request w2).
Proof.
  intro Hm. unfold_py; simpl.
  destruct (py_not (text request) || PyStr.eqb (strip (text request)) []);
    simpl; [reflexivity|].
  destruct (model w1) as [c1|] eqn:H1; destruct (model w2) as [c2|] eqn:H2;
    try discriminate; simpl; rewrite ?isinstance_Exception; simpl; trivial.
  injection Hm as <-.
  destruct (predict c1 [text request]); simpl;
    rewrite ?isinstance_Exception, ?H1, ?H2; simpl; trivial.
  all_paths.
Qed.

Lemma prediction_failure_detail_nonempty (e : py_exn) :
  prediction_failure_detail e <> [].
Proof.
  unfold prediction_failure_detail.
  change (of_ascii "Errore durante l'identificazione della lingua: ")
    with (69%N :: of_ascii "rrore durante l'identificazione della lingua: ").
  discriminate.
Qed.

(** After any request the next one is answered as if the first had not
    been made. *)
Lemma next_request_unaffected (request next : LanguageRequest) (w : world) :
  fst (post_identify_language next (snd (post_identify_language request w)))
  = fst (post_identify_language next w).
Proof.
  unfold post_identify_language.
  pose proof (identify_language_keeps_model request w) as Hk.
  destruct (identify_language request w) as [o1 w1]. simpl in *.
  pose proof (identify_language_outcome_indep next w1 w Hk) as Hi.
  destruct (identify_language next w1) as [o2 w2].
  destruct (identify_language next w) as [o3 w3]. simpl in *. congruence.
Qed.

(** C5. For a non-blank text, when the classifier raises an exception
    that is neither an [AttributeError] nor a [NotImplementedError], be it
    from [predict] or from [predict_proba], the handler raises the 500
    [HTTPException] whose detail wraps the error and is not empty; the
    answer is the 500 response with that detail, no exception escapes as
    such, and the request that follows is served as if nothing had
    happened. *)
Theorem classifier_error_gives_500 :
  forall (request : LanguageRequest) (w : world) (clf : classifier) (e : py_exn),
    ~ is_blank (text request) ->
    model w = Some clf ->
    no_probability e = false ->
    (predict clf [text request] = Raised e
     \/ exists labels proba,
          predict clf [text request] = Returned labels
          /\ predict_proba clf = Some proba
          /\ proba [text request] = Raised e) ->
    fst (identify_language request w)
    = Raised (HTTPExc 500 (prediction_failure_detail e))
    /\ fst (post_identify_language request w)
       = error_response 500 (prediction_failure_detail e)
    /\ prediction_failure_detail e <> []
    /\ forall next : LanguageRequest,
         fst (post_identify_language next
                    (snd (post_identify_language request w)))
         = fst (post_identify_language next w).
Proof.
  intros request w clf e Hnb Hm Hn Hraise.
  assert (H : fst (identify_language request w)
              = Raised (HTTPExc 500 (prediction_failure_detail e))).
  { destruct Hraise as [Hp | (labels & proba & Hp & Hpp & Hr)].
    - eapply path_predict_raises; eassumption.
    - eapply path_proba_raises; eassumption. }
  repeat split.
  - exact H.
  - unfold post_identify_language. destruct (identify_language request w) as [o w'].
    simpl in H. subst o. reflexivity.
  - apply prediction_failure_detail_nonempty.
  - intro next. apply next_request_unaffected.
Qed.

Lemma classifier_error_gives_500_witness :
  fst (identify_language {| text := questo |} (w_ready clf_broken))
  = Raised (HTTPExc 500 (prediction_failure_detail
                           (Exc ValueError (of_ascii "empty vocabulary"))))
  /\ fst (post_identify_language {| text := questo |} (w_ready clf_broken))
     = error_response 500 (prediction_failure_detail
                             (Exc ValueError (of_ascii "empty vocabulary")))
  /\ prediction_failure_detail (Exc ValueError (of_ascii "empty vocabulary")) <> []
  /\ forall next : LanguageRequest,
       fst (post_identify_language next
                  (snd (post_identify_language {| text := questo |}
                              (w_ready clf_broken))))
       = fst (post_identify_language next (w_ready clf_broken)).
Proof.
  apply (classifier_error_gives_500 {| text := questo |} (w_ready clf_broken)
           clf_broken (Exc ValueError (of_ascii "empty vocabulary"))).
  - intro H. apply blank_test_iff in H. vm_compute in H. discriminate.
  - reflexivity.
  - reflexivity.
  - left. reflexivity.
Defined.

(* ================================================================= *)
(** ** The fallback confidence *)

(** [round(0.9, 2)] is [0.9]. *)
Lemma round2_fallback : py_round2 (float_lit 9 10) = float_lit 9 10.
Proof. vm_compute. reflexivity. Qed.

(** C3. For a classifier that offers no probability (no [predict_proba],
    or a call that raises [AttributeError] or [NotImplementedError]) and a
    non-blank text, the confidence of the response is exactly [0.9]: every
    value the handler returns carries it, and the endpoint does answer 200
    with it as soon as [predict] gives a label (a string, as the response
    model wants). *)
Theorem no_probability_confidence_is_0_9 :
  forall (request : LanguageRequest) (w : world) (clf : classifier),
    ~ is_blank (text request) ->
    model w = Some clf ->
    lacks_probability clf [text request] ->
    (forall (v : py_value) (w' : world),
        identify_language request w = (Returned v, w') ->
        exists label, v = response_dict label (float_lit 9 10))
    /\ (forall l ls,
          predict clf [text request] = Returned (VStr l :: ls) ->
          fst (post_identify_language request w)
          = {| status := 200; body := language_response l (float_lit 9 10) |}).
Proof.
  intros request w clf Hnb Hm Hl.
  assert (Hok : forall l ls,
             predict clf [text request] = Returned (l :: ls) ->
             fst (identify_language request w)
             = Returned (response_dict l (float_lit 9 10))).
  { intros l ls Hp.
    rewrite (path_fallback request Hnb w clf Hm l ls Hp Hl), round2_fallback.
    reflexivity. }
  split.
  - intros v w' Hrun.
    destruct (predict clf [text request]) as [[|l ls]|e] eqn:Hp.
    + exfalso. revert Hrun. run_handler request Hnb. rewrite Hm. simpl.
      rewrite Hp. simpl. rewrite Hm. simpl.
      unfold lacks_probability in Hl.
      destruct (predict_proba clf) as [proba|]; simpl.
      * destruct Hl as [e [Hr Hn]]. rewrite Hr. simpl. rewrite Hn. simpl.
        rewrite ?isinstance_Exception. discriminate.
      * rewrite ?isinstance_Exception. discriminate.
    + exists l. specialize (Hok l ls eq_refl). rewrite Hrun in Hok.
      simpl in Hok. congruence.
    + pose proof (path_predict_raises request Hnb w clf Hm e Hp) as H.
      rewrite Hrun in H. discriminate H.
  - intros l ls Hp. rewrite post_fst, (Hok (VStr l) ls Hp).
    apply respond_validated_str.
Qed.

Lemma no_probability_confidence_is_0_9_witness :
  (forall (v : py_value) (w' : world),
      identify_language {| text := questo |} (w_ready clf_point) = (Returned v, w') ->
      exists label, v = response_dict label (float_lit 9 10))
  /\ (forall l ls,
        predict clf_point [text {| text := questo |}] = Returned (VStr l :: ls) ->
        fst (post_identify_language {| text := questo |} (w_ready clf_point))
        = {| status := 200; body := language_response l (float_lit 9 10) |}).
Proof.
  apply (no_probability_confidence_is_0_9 {| text := questo |} (w_ready clf_point)
           clf_point).
  - intro H. apply blank_test_iff in H. vm_compute in H. discriminate.
  - reflexivity.
  - exact I.
Defined.

(* ================================================================= *)
(** ** Totality at the HTTP boundary *)

(** The [dict] the handler returns passes [response_model] when, and
    only when, its label is a string. *)
Lemma language_response_validates (l : py_str) (c : float64) :
  response_model (language_response l c)
  = Some {| language_code := l; confidence := c |}.
Proof. reflexivity. Qed.

Lemma response_dict_validates_iff (label : py_value) (c : float64) :
  response_model (response_dict label c)
  = match label with
    | VStr l => Some {| language_code := l; confidence := c |}
    | _ => None
    end.
Proof. destruct label; reflexivity. Qed.

Lemma respond_validated_other (label : py_value) (c : float64) :
  (forall l, label <> VStr l) ->
  respond_validated (Returned (response_dict label c))
  = {| status := 500; body := VStr (of_ascii "Internal Server Error") |}.
Proof.
  intro H. destruct label; try reflexivity.
  exfalso. eapply H. reflexivity.
Qed.

(** What the endpoint sends for the [dict] of a label and a confidence. *)
Lemma response_dict_respond (label : py_value) (c : float64) :
  respond_validated (Returned (response_dict label c))
  = match label with
    | VStr l => {| status := 200; body := language_response l c |}
    | _ => {| status := 500; body := VStr (of_ascii "Internal Server Error") |}
    end.
Proof. destruct label; reflexivity. Qed.

(** However the handler ends, it is in one of three ways: it returns the
    [dict] of a label and a confidence, it raises the 400 error, or it
    raises a 500 error. *)
Lemma identify_language_ends (request : LanguageRequest) (w : world) :
  (exists label c w',
      identify_language request w = (Returned (response_dict label c), w'))
  \/ (exists w', identify_language request w
                 = (Raised (HTTPExc 400 empty_text_msg), w'))
  \/ (exists detail w', identify_language request w
                        = (Raised (HTTPExc 500 detail), w')).
Proof.
  unfold_py; simpl.
  destruct (py_not (text request) || PyStr.eqb (strip (text request)) []);
    simpl.
  - right; left. eexists. reflexivity.
  - repeat (break_inner; simpl; rewrite ?isinstance_Exception; simpl;
            same_classifier);
      solve [ left; do 3 eexists; reflexivity
            | right; right; do 2 eexists; reflexivity ].
Qed.



(** Two of these behaviours: an empty sequence of labels and an empty
    first row of probabilities both end in the 500 error. *)
Lemma empty_results_give_500 (request : LanguageRequest) (w : world)
      (clf : classifier) :
  ~ is_blank (text request) ->
  model w = Some clf ->
  (predict clf [text request] = Returned []
   \/ exists labels proba rows,
        predict clf [text request] = Returned labels
        /\ predict_proba clf = Some proba
        /\ proba [text request] = Returned ([] :: rows)) ->
  exists detail, fst (identify_language request w) = Raised (HTTPExc 500 detail).
Proof.
  intros Hnb Hm [Hp | (labels & proba & rows & Hp & Hpp & Hr)];
    run_handler request Hnb; rewrite Hm; simpl; rewrite Hp; simpl;
    rewrite Hm; simpl.
  - repeat (break_inner; simpl; rewrite ?isinstance_Exception; simpl);
      eexists; reflexivity.
  - rewrite Hpp. simpl. rewrite Hr. simpl.
    rewrite ?isinstance_Exception. eexists; reflexivity.
Qed.

(* ================================================================= *)
(** ** The order of floats and the builtin [max] *)

Section FloatOrder.

Lemma SFcompare_rank (x y : float64) :
  not_nan x -> not_nan y ->
  SFcompare x y = Some (lex_compare (rank x) (rank y)).
Proof.
  unfold not_nan, lex_compare.
  destruct x as [[|]|[|]| |[|] m e], y as [[|]|[|]| |[|] n f];
    intros Hx Hy; try congruence; try reflexivity; simpl.
  rewrite Z.compare_opp. rewrite (Z.compare_antisym e f).
  destruct (e ?= f); reflexivity.
Qed.

Lemma le_rank (x y : float64) :
  not_nan x -> not_nan y ->
  le x y = true <-> lex_compare (rank x) (rank y) <> Gt.
Proof.
  intros Hx Hy. unfold le, SFleb. rewrite (SFcompare_rank x y Hx Hy).
  destruct (lex_compare (rank x) (rank y)); split; congruence.
Qed.

Lemma gt_rank (x y : float64) :
  not_nan x -> not_nan y ->
  gt x y = true <-> lex_compare (rank x) (rank y) = Gt.
Proof.
  intros Hx Hy. unfold gt, SFltb. rewrite (SFcompare_rank y x Hy Hx).
  unfold lex_compare.
  destruct (rank x) as [[a b] c], (rank y) as [[a' b'] c']; simpl.
  rewrite (Z.compare_antisym a a'), (Z.compare_antisym b b'),
    (Z.compare_antisym c c').
  destruct (a ?= a'), (b ?= b'), (c ?= c'); simpl; split; congruence.
Qed.

Lemma lex_compare_refl (a : Z * Z * Z) : lex_compare a a = Eq.
Proof.
  unfold lex_compare. rewrite !Z.compare_refl. reflexivity.
Qed.

Lemma lex_le_trans (a b c : Z * Z * Z) :
  lex_compare a b <> Gt -> lex_compare b c <> Gt -> lex_compare a c <> Gt.
Proof.
  unfold lex_compare.
  destruct a as [[a1 a2] a3], b as [[b1 b2] b3], c as [[c1 c2] c3]; simpl.
  destruct (Z.compare_spec a1 b1), (Z.compare_spec b1 c1),
    (Z.compare_spec a1 c1); try lia; try congruence;
    destruct (Z.compare_spec a2 b2), (Z.compare_spec b2 c2),
      (Z.compare_spec a2 c2); try lia; try congruence;
    destruct (Z.compare_spec a3 b3), (Z.compare_spec b3 c3),
      (Z.compare_spec a3 c3); try lia; congruence.
Qed.

Lemma le_refl (x : float64) : not_nan x -> le x x = true.
Proof.
  intro Hx. apply le_rank; trivial. rewrite lex_compare_refl. discriminate.
Qed.

Lemma le_trans (x y z : float64) :
  not_nan x -> not_nan y -> not_nan z ->
  le x y = true -> le y z = true -> le x z = true.
Proof.
  intros Hx Hy Hz Hxy Hyz.
  apply le_rank in Hxy; trivial. apply le_rank in Hyz; trivial.
  apply le_rank; trivial. eapply lex_le_trans; eassumption.
Qed.

(** One round of the loop of [max]: the new running value is one of the
    two and is above both. *)
Lemma max_step_spec (x y : float64) :
  not_nan x -> not_nan y ->
  (max_step x y = x \/ max_step x y = y)
  /\ le x (max_step x y) = true /\ le y (max_step x y) = true.
Proof.
  intros Hx Hy. unfold max_step.
  destruct (gt y x) eqn:G.
  - split; [right; reflexivity|]. split; [|apply le_refl; trivial].
    apply gt_rank in G; trivial. apply le_rank; trivial.
    revert G. unfold lex_compare.
    destruct (rank x) as [[a b] c], (rank y) as [[a' b'] c']; simpl.
    rewrite (Z.compare_antisym a a'), (Z.compare_antisym b b'),
      (Z.compare_antisym c c').
    destruct (a ?= a'), (b ?= b'), (c ?= c'); simpl; congruence.
  - split; [left; reflexivity|]. split; [apply le_refl; trivial|].
    apply le_rank; trivial. intro C. apply gt_rank in C; trivial. congruence.
Qed.

(** On a row without NaN the loop of [max] ends on an item of the row
    that every item is below. *)
Lemma fold_max_spec (rest : list float64) :
  forall x : float64,
    not_nan x -> Forall not_nan rest ->
    In (fold_left max_step rest x) (x :: rest)
    /\ Forall (fun y => le y (fold_left max_step rest x) = true) (x :: rest).
Proof.
  Local Transparent fold_left.
  induction rest as [|y rest IH]; intros x Hx Hrest.
  - simpl. split; [left; reflexivity|].
    constructor; [apply le_refl; trivial | constructor].
  - inversion Hrest as [|? ? Hy Hrest']; subst. simpl.
    destruct (max_step_spec x y Hx Hy) as (Hsel & Hxm & Hym).
    assert (Hm : not_nan (max_step x y)) by (destruct Hsel as [-> | ->]; trivial).
    destruct (IH (max_step x y) Hm Hrest') as [Hin Hall].
    inversion Hall as [|? ? Htop Hbelow]; subst.
    assert (Hf : not_nan (fold_left max_step rest (max_step x y))).
    { destruct Hin as [<- | Hin]; trivial.
      rewrite Forall_forall in Hrest'. apply Hrest'; trivial. }
    split.
    + destruct Hin as [Hin | Hin].
      * rewrite <- Hin. destruct Hsel as [-> | ->]; simpl; auto.
      * right; right; exact Hin.
    + constructor; [exact (le_trans _ _ _ Hx Hm Hf Hxm Htop)|].
      constructor; [exact (le_trans _ _ _ Hy Hm Hf Hym Htop) | exact Hbelow].
  Local Opaque fold_left.
Qed.

(** Whatever the row, the loop of [max] ends on one of its items. *)
Lemma fold_max_in (rest : list float64) :
  forall x : float64, In (fold_left max_step rest x) (x :: rest).
Proof.
  Local Transparent fold_left.
  induction rest as [|y rest IH]; intro x; simpl.
  - left; reflexivity.
  - destruct (IH (max_step x y)) as [H | H].
    + rewrite <- H. unfold max_step. destruct (gt y x); auto.
    + right; right; exact H.
  Local Opaque fold_left.
Qed.

End FloatOrder.

(* ================================================================= *)
(** ** The predicted language and its confidence *)

(** [round(0.98, 2)] is [0.98]. *)
Lemma round2_scenario : py_round2 (float_lit 98 100) = float_lit 98 100.
Proof. vm_compute. reflexivity. Qed.

(** Rounding at work: [round(0.337, 2)] is [0.34], and the tie [0.125],
    exact in binary, goes to the even [0.12]. *)
Example round2_examples :
  py_round2 (float_lit 337 1000) = float_lit 34 100
  /\ py_round2 (float_lit 125 1000) = float_lit 12 100.
Proof. split; vm_compute; reflexivity. Qed.

Lemma questo_not_blank : ~ is_blank questo.
Proof.
  intro H. apply blank_test_iff in H. vm_compute in H. discriminate.
Qed.

Section RoundingSpec.

Local Transparent py_round2.

(** [round_half_even num den] is a whole number nearest to [num/den], and
    the even one when [num/den] lies halfway between two. *)
Lemma round_half_even_nearest (num den : Z) :
  0 < den -> 0 <= num ->
  0 <= round_half_even num den
  /\ Z.abs (2 * num - 2 * round_half_even num den * den) <= den
  /\ (Z.abs (2 * num - 2 * round_half_even num den * den) = den ->
      Z.even (round_half_even num den) = true).
Proof.
  intros Hden Hnum. unfold round_half_even.
  pose proof (Z.div_mod num den ltac:(lia)) as Hdm.
  pose proof (Z.mod_pos_bound num den Hden) as Hr.
  assert (Hq : 0 <= num / den) by (apply Z.div_pos; lia).
  set (q := num / den) in *. set (r := num mod den) in *.
  assert (Hk0 : 2 * num - 2 * q * den = 2 * r) by lia.
  assert (Hk1 : 2 * num - 2 * (q + 1) * den = 2 * r - 2 * den) by lia.
  destruct (Z.compare_spec (2 * r) den) as [E | E | E].
  - destruct (Z.even q) eqn:Heven.
    + rewrite Hk0. repeat split; try lia. intros _. exact Heven.
    + rewrite Hk1. repeat split; try lia. intros _.
      rewrite Z.add_1_r, Z.even_succ, <- Z.negb_even, Heven. reflexivity.
  - rewrite Hk0. repeat split; lia.
  - rewrite Hk1. repeat split; lia.
Qed.

(** [round(x, 2)] rounds to two decimals: on a finite [x] it gives the
    float that [k/100] denotes, [k] being the whole number of hundredths
    nearest to the magnitude of [x] (ties to even), with the sign of [x];
    it leaves zeros, infinities and NaN as they are. *)
Lemma py_round2_rounds (x : float64) : rounded_to_two_decimals x (py_round2 x).
Proof.
  destruct x as [s | s | | s m e]; simpl; try reflexivity.
  exists (hundredths m e). split; [|reflexivity].
  unfold nearest_hundredths, hundredths.
  destruct (0 <=? e) eqn:He.
  - apply Z.leb_le in He. split; [|reflexivity].
    pose proof (Z.pow_nonneg 2 e ltac:(lia)). nia.
  - apply Z.leb_gt in He.
    assert (Hden : 0 < 2 ^ (- e)) by (apply Z.pow_pos_nonneg; lia).
    destruct (round_half_even_nearest (Z.pos m * 100) (2 ^ (- e)) Hden ltac:(lia))
      as (H0 & H1 & H2).
    repeat split; assumption.
Qed.

End RoundingSpec.

(** C1. For a non-blank text on which [predict] returns labels, the
    first a string, and [predict_proba] returns rows whose first is not
    empty, the endpoint answers 200 with, as [language_code], the first
    label and, as [confidence], [round(max(row), 2)] for the first row.
    That confidence is [max(row)] rounded to two decimals: the float that
    [k/100] denotes for the whole number [k] of hundredths nearest to it;
    and on a row without NaN that [max] is an item of the row above all
    the others.  In particular the text "Questo e-grave un esempio di
    testo." with label ["IT"] and top probability [0.98] is answered
    [{"language_code": "IT", "confidence": 0.98}] with status 200. *)
Theorem identify_language_predicts :
  forall (request : LanguageRequest) (w : world) (clf : classifier)
         (proba : list py_str -> outcome (list (list float64)))
         (l : py_str) (ls : list py_value)
         (x : float64) (rest : list float64) (rows : list (list float64)),
    ~ is_blank (text request) ->
    model w = Some clf ->
    predict clf [text request] = Returned (VStr l :: ls) ->
    predict_proba clf = Some proba ->
    proba [text request] = Returned ((x :: rest) :: rows) ->
    let top := fold_left max_step rest x in
    fst (post_identify_language request w)
    = {| status := 200; body := language_response l (py_round2 top) |}
    /\ rounded_to_two_decimals top (py_round2 top)
    /\ (Forall not_nan (x :: rest) ->
        In top (x :: rest) /\ Forall (fun y => le y top = true) (x :: rest))
    /\ (text request = questo -> l = of_ascii "IT" -> top = float_lit 98 100 ->
        fst (post_identify_language request w)
        = {| status := 200;
             body := language_response (of_ascii "IT") (float_lit 98 100) |}).
Proof.
  intros request w clf proba l ls x rest rows Hnb Hm Hp Hpp Hr top.
  assert (H : fst (post_identify_language request w)
              = {| status := 200; body := language_response l (py_round2 top) |}).
  { rewrite post_fst,
      (path_max request Hnb w clf Hm (VStr l) ls proba x rest rows Hp Hpp Hr).
    apply respond_validated_str. }
  split; [exact H|]. split; [apply py_round2_rounds|]. split.
  - intro Hnan. inversion Hnan; subst. apply fold_max_spec; assumption.
  - intros _ Hl Htop. rewrite H, Hl, Htop, round2_scenario. reflexivity.
Qed.

Lemma identify_language_predicts_witness :
  let request := {| text := questo |} in
  let w := w_ready clf_it in
  let x := float_lit 2 100 in
  let rest := [float_lit 98 100] in
  let top := fold_left max_step rest x in
  fst (post_identify_language request w)
  = {| status := 200; body := language_response (of_ascii "IT") (py_round2 top) |}
  /\ rounded_to_two_decimals top (py_round2 top)
  /\ (Forall not_nan (x :: rest) ->
      In top (x :: rest) /\ Forall (fun y => le y top = true) (x :: rest))
  /\ (text request = questo -> of_ascii "IT" = of_ascii "IT" ->
      top = float_lit 98 100 ->
      fst (post_identify_language request w)
      = {| status := 200;
           body := language_response (of_ascii "IT") (float_lit 98 100) |}).
Proof.
  apply (identify_language_predicts {| text := questo |} (w_ready clf_it) clf_it
           (fun texts =>
              Returned (map (fun _ => [float_lit 2 100; float_lit 98 100]) texts))
           (of_ascii "IT") [] (float_lit 2 100) [float_lit 98 100] []).
  - intro H. apply blank_test_iff in H. vm_compute in H. discriminate.
  - reflexivity.
  - reflexivity.
  - reflexivity.
  - reflexivity.
Defined.

(** The scenario itself, evaluated. *)
Example scenario_questo :
  fst (post_identify_language {| text := questo |} (w_ready clf_it))
  = {| status := 200;
       body := language_response (of_ascii "IT") (float_lit 98 100) |}.
Proof. vm_compute. reflexivity. Qed.

(* ================================================================= *)
(** ** Rounding a probability to two decimals *)

Section Rounding.

Local Transparent py_round2 float_lit.

Lemma digits2_pos_bound (m : positive) : Z.pos m < 2 ^ Z.pos (digits2_pos m).
Proof.
  induction m as [p IH | p IH |]; simpl digits2_pos.
  - rewrite Pos2Z.inj_succ, Z.pow_succ_r by lia. lia.
  - rewrite Pos2Z.inj_succ, Z.pow_succ_r by lia. lia.
  - reflexivity.
Qed.

Lemma round_half_even_range (num den : Z) :
  0 < den -> 0 <= num <= 100 * den ->
  0 <= round_half_even num den <= 100.
Proof.
  intros Hden Hnum. unfold round_half_even.
  pose proof (Z.div_mod num den ltac:(lia)) as Hdm.
  pose proof (Z.mod_pos_bound num den Hden) as Hr.
  assert (Hq0 : 0 <= num / den) by (apply Z.div_pos; lia).
  assert (Hq1 : num / den <= 100) by (apply Z.div_le_upper_bound; lia).
  assert (Htop : num / den = 100 -> num mod den = 0) by nia.
  destruct (Z.compare_spec (2 * (num mod den)) den) as [E | E | E].
  - destruct (Z.even (num / den)); lia.
  - lia.
  - assert (num / den <> 100) by lia. lia.
Qed.

Lemma same_eq (a b : float64) : same a b = true -> a = b.
Proof.
  destruct a as [s|s| |s m e], b as [t|t| |t n f]; simpl; try discriminate;
    try reflexivity.
  - intro H. apply eqb_prop in H. congruence.
  - intro H. apply eqb_prop in H. congruence.
  - intro H. apply andb_prop in H as [H He]. apply andb_prop in H as [Hs Hm].
    apply eqb_prop in Hs. apply Pos.eqb_eq in Hm. apply Z.eqb_eq in He.
    congruence.
Qed.

Lemma upto100_In (k : Z) : 0 <= k <= 100 -> In k upto100.
Proof.
  intro Hk. unfold upto100. apply in_map_iff.
  exists (Z.to_nat k). split; [lia|]. apply in_seq. lia.
Qed.

(** Each of the 101 floats [k/100], [0 <= k <= 100], lies between 0 and
    1 and rounds to itself. *)
Lemma hundredths_table : forallb hundredth_ok upto100 = true.
Proof. vm_compute. reflexivity. Qed.

Lemma hundredth_ok_all (k : Z) : 0 <= k <= 100 -> hundredth_ok k = true.
Proof.
  intro Hk. pose proof hundredths_table as H.
  rewrite forallb_forall in H. apply H, upto100_In, Hk.
Qed.

Lemma f_one_bits : f_one = S754_finite false 4503599627370496 (-52).
Proof. vm_compute. reflexivity. Qed.

(** The order of two positive finite floats: by exponent, then by
    mantissa. *)
Lemma le_finite_positive (m n : positive) (e f : Z) :
  le (S754_finite false m e) (S754_finite false n f) = true ->
  e < f \/ (e = f /\ Z.pos m <= Z.pos n).
Proof.
  unfold le, SFleb, SFcompare. rewrite Pos.compare_cont_spec.
  destruct (Z.compare_spec e f) as [E | E | E]; try discriminate.
  - right. split; [exact E|].
    destruct (Pos.compare_spec m n) as [C | C | C]; simpl in *;
      try discriminate; [subst; lia|].
    apply Pos2Z.pos_lt_pos in C. apply Z.lt_le_incl, C.
  - left. exact E.
Qed.

(** A finite probability is positive and its exact value [m * 2^e] is at
    most 1. *)
Lemma probability_finite (s : bool) (m : positive) (e : Z) :
  is_probability (S754_finite s m e) ->
  s = false /\ e < 0 /\ Z.pos m <= 2 ^ (- e).
Proof.
  intros (Hv & H0 & H1).
  assert (Hs : s = false) by (destruct s; [discriminate H0 | reflexivity]).
  subst s. split; [reflexivity|].
  unfold is_float64, valid_binary, bounded, canonical_mantissa, fexp, emin,
    prec, emax in Hv.
  apply andb_prop in Hv as [Hc _]. apply Z.eqb_eq in Hc.
  pose proof (digits2_pos_bound m) as Hd.
  assert (Hd53 : Z.pos (digits2_pos m) <= 53) by lia.
  assert (Hm53 : Z.pos m < 2 ^ 53).
  { eapply Z.lt_le_trans; [exact Hd|]. apply Z.pow_le_mono_r; lia. }
  rewrite f_one_bits in H1.
  apply le_finite_positive in H1 as [E | [E Hm]].
  - split; [lia|].
    apply Z.lt_le_incl. eapply Z.lt_le_trans; [exact Hm53|].
    apply Z.pow_le_mono_r; lia.
  - subst e. split; [lia|]. exact Hm.
Qed.

Lemma hundredths_probability (m : positive) (e : Z) :
  e < 0 -> Z.pos m <= 2 ^ (- e) -> 0 <= hundredths m e <= 100.
Proof.
  intros He Hm. unfold hundredths.
  destruct (Z.leb_spec 0 e) as [H | _]; [lia|].
  apply round_half_even_range.
  - apply Z.pow_pos_nonneg; lia.
  - lia.
Qed.

(** The confidence computed from a probability: between 0 and 1, and
    unchanged by a second [round(_, 2)]. *)
Lemma round2_probability (x : float64) :
  is_probability x ->
  le f_zero (py_round2 x) = true
  /\ le (py_round2 x) f_one = true
  /\ two_decimals (py_round2 x).
Proof.
  intro Hp. unfold two_decimals.
  destruct x as [s | s | | s m e].
  - simpl. repeat split; destruct s; reflexivity.
  - destruct Hp as (_ & H0 & H1). destruct s; discriminate.
  - destruct Hp as (_ & H0 & _). discriminate.
  - destruct (probability_finite s m e Hp) as (-> & He & Hm).
    pose proof (hundredth_ok_all _ (hundredths_probability m e He Hm)) as Hok.
    unfold hundredth_ok in Hok.
    change (py_round2 (S754_finite false m e))
      with (hundredth_float false (hundredths m e)).
    apply andb_prop in Hok as [Hok Hsame]. apply andb_prop in Hok as [Hlo Hhi].
    apply same_eq in Hsame. auto.
Qed.

(** The confidence computed from a probability is the float that [k/100]
    denotes for a whole [k] from 0 to 100; the only other value is the
    negative zero that [round(-0.0, 2)] keeps. *)
Lemma round2_probability_hundredth (x : float64) :
  is_probability x ->
  exists k, 0 <= k <= 100
            /\ (py_round2 x = hundredth_float false k
                \/ (k = 0 /\ py_round2 x = S754_zero true)).
Proof.
  intro Hp. destruct x as [s | s | | s m e].
  - exists 0. split; [lia|]. destruct s; [right | left]; auto.
  - destruct Hp as (_ & H0 & H1). destruct s; discriminate.
  - destruct Hp as (_ & H0 & _). discriminate.
  - destruct (probability_finite s m e Hp) as (-> & He & Hm).
    exists (hundredths m e).
    split; [apply hundredths_probability; assumption|]. left. reflexivity.
Qed.

(** The fallback [0.9] is a probability. *)
Lemma fallback_is_probability : is_probability (float_lit 9 10).
Proof. repeat split; vm_compute; reflexivity. Qed.

End Rounding.

(** C4. For every non-blank text on which the classifier succeeds (it
    returns a label and, when it offers probabilities, a first row of
    values between 0 and 1), the endpoint answers 200 and the confidence
    of the response lies between 0 and 1 and carries exactly two decimals:
    it is the float that [k/100] denotes for a whole number [k] of
    hundredths from 0 to 100 (or the negative zero, which [round] keeps),
    and it equals its own rounding to two decimals. *)
Theorem confidence_in_unit_interval_two_decimals :
  forall (request : LanguageRequest) (w : world) (clf : classifier) (l : py_str),
    ~ is_blank (text request) ->
    model w = Some clf ->
    classifier_succeeds clf [text request] l ->
    exists c : float64,
      fst (post_identify_language request w)
      = {| status := 200; body := language_response l c |}
      /\ le f_zero c = true /\ le c f_one = true
      /\ (exists k, 0 <= k <= 100
                    /\ (c = hundredth_float false k
                        \/ (k = 0 /\ c = S754_zero true)))
      /\ py_round2 c = c.
Proof.
  intros request w clf l Hnb Hm [[ls Hp] Hconf].
  assert (Hserve : forall c,
             fst (identify_language request w)
             = Returned (response_dict (VStr l) c) ->
             fst (post_identify_language request w)
             = {| status := 200; body := language_response l c |}).
  { intros c H. rewrite post_fst, H. apply respond_validated_str. }
  assert (Hround : forall x, is_probability x ->
             le f_zero (py_round2 x) = true /\ le (py_round2 x) f_one = true
             /\ (exists k, 0 <= k <= 100
                           /\ (py_round2 x = hundredth_float false k
                               \/ (k = 0 /\ py_round2 x = S754_zero true)))
             /\ py_round2 (py_round2 x) = py_round2 x).
  { intros x Hx. destruct (round2_probability x Hx) as (H0 & H1 & H2).
    repeat split; trivial. apply round2_probability_hundredth, Hx. }
  destruct Hconf as [Hl | (proba & x & rest & rows & Hpp & Hr & Hrow)].
  - exists (py_round2 (float_lit 9 10)). split.
    + apply Hserve. eapply path_fallback; eassumption.
    + apply Hround, fallback_is_probability.
  - exists (py_round2 (fold_left max_step rest x)). split.
    + apply Hserve. eapply path_max; eassumption.
    + apply Hround.
      rewrite Forall_forall in Hrow. apply Hrow, fold_max_in.
Qed.

Lemma confidence_in_unit_interval_two_decimals_witness :
  exists c : float64,
    fst (post_identify_language {| text := questo |} (w_ready clf_it))
    = {| status := 200; body := language_response (of_ascii "IT") c |}
    /\ le f_zero c = true /\ le c f_one = true
    /\ (exists k, 0 <= k <= 100
                  /\ (c = hundredth_float false k
                      \/ (k = 0 /\ c = S754_zero true)))
    /\ py_round2 c = c.
Proof.
  apply (confidence_in_unit_interval_two_decimals {| text := questo |}
           (w_ready clf_it) clf_it (of_ascii "IT")).
  - intro H. apply blank_test_iff in H. vm_compute in H. discriminate.
  - reflexivity.
  - split.
    + exists []. reflexivity.
    + right.
      exists (fun texts =>
                Returned (map (fun _ => [float_lit 2 100; float_lit 98 100]) texts)),
        (float_lit 2 100), [float_lit 98 100], [].
      split; [reflexivity|]. split; [reflexivity|].
      repeat constructor; vm_compute; reflexivity.
Defined.

(** The bound is the classifier's: the handler passes on what [max]
    gives and does not clamp it.  Fed rows that are not probabilities it
    answers with a confidence outside the unit interval. *)
Example confidence_is_not_clamped :
  fst (post_identify_language {| text := questo |} (w_ready clf_out_of_contract))
  = {| status := 200;
       body := language_response (of_ascii "IT") (float_lit 15 10) |}.
Proof. vm_compute. reflexivity. Qed.

(** Whatever the handler returns is a response whose confidence is the
    rounded [0.9] or the rounded [max] of the first row. *)
Lemma returned_confidence (request : LanguageRequest) (w w' : world) (v : py_value) :
  identify_language request w = (Returned v, w') ->
  exists l c,
    v = response_dict l (py_round2 c)
    /\ (c = float_lit 9 10
        \/ exists clf proba x rest rows,
             model w = Some clf /\ predict_proba clf = Some proba
             /\ proba [text request] = Returned ((x :: rest) :: rows)
             /\ c = fold_left max_step rest x).
Proof.
  unfold_py; simpl.
  destruct (py_not (text request) || PyStr.eqb (strip (text request)) []);
    simpl; [discriminate|].
  repeat (break_inner; simpl; rewrite ?isinstance_Exception; simpl;
          same_classifier; try discriminate);
    intro H; injection H as <- _; do 2 eexists; (split; [reflexivity|]);
    solve [ left; reflexivity | right; eauto 12 ].
Qed.

(* ================================================================= *)
(** ** [GET /health]: the timestamp *)

Section Timestamp.

Local Transparent of_ascii.

Lemma digit_val_digit (n : Z) : digit_val (digit n) = Some (n mod 10).
Proof.
  unfold digit_val, digit.
  pose proof (Z.mod_pos_bound n 10 ltac:(lia)) as Hb.
  set (d := n mod 10) in *.
  destruct (N.leb_spec 48 (48 + Z.to_N d)) as [_ | H]; [|lia].
  destruct (N.leb_spec (48 + Z.to_N d) 57) as [_ | H]; [|lia].
  cbn [andb]. f_equal. rewrite N2Z.inj_add, Z2N.id by lia. lia.
Qed.

Lemma take_digits_step (n : nat) (acc d : Z) (r : py_str) :
  take_digits (S n) acc (digit d :: r) = take_digits n (10 * acc + d mod 10) r.
Proof.
  cbn [take_digits]. rewrite digit_val_digit. reflexivity.
Qed.

Lemma take_pad2 (n : Z) (r : py_str) :
  0 <= n < 100 -> take_digits 2 0 (pad2 n ++ r) = Some (n, r).
Proof.
  intro Hn. unfold pad2. cbn [app]. rewrite !take_digits_step.
  cbn [take_digits]. do 2 f_equal. Z.div_mod_to_equations. lia.
Qed.

Lemma take_pad4 (n : Z) (r : py_str) :
  0 <= n < 10000 -> take_digits 4 0 (pad4 n ++ r) = Some (n, r).
Proof.
  intro Hn. unfold pad4. cbn [app]. rewrite !take_digits_step.
  cbn [take_digits]. do 2 f_equal. Z.div_mod_to_equations. lia.
Qed.

Lemma take_pad6 (n : Z) (r : py_str) :
  0 <= n < 1000000 -> take_digits 6 0 (pad6 n ++ r) = Some (n, r).
Proof.
  intro Hn. unfold pad6. cbn [app]. rewrite !take_digits_step.
  cbn [take_digits]. do 2 f_equal. Z.div_mod_to_equations. lia.
Qed.

Local Opaque pad2 pad4 pad6 take_digits.

Lemma between_true (lo x hi : Z) : between lo x hi = true -> lo <= x <= hi.
Proof.
  unfold between. intro H. apply andb_prop in H as [H1 H2].
  apply Z.leb_le in H1. apply Z.leb_le in H2. lia.
Qed.

Lemma days_in_month_le_31 (y m : Z) : days_in_month y m <= 31.
Proof.
  unfold days_in_month.
  destruct (m =? 2); [destruct (is_leap y); lia|].
  destruct ((m =? 4) || (m =? 6) || (m =? 9) || (m =? 11)); lia.
Qed.

(** What [isoformat] writes for a valid [datetime] is read back as that
    [datetime]. *)
Lemma parse_isoformat (d : datetime) :
  valid_datetime d = true -> parse_iso8601 (isoformat d) = Some d.
Proof.
  intro Hv. pose proof Hv as Hfields. unfold valid_datetime in Hfields.
  repeat (apply andb_prop in Hfields as [Hfields ?]).
  repeat match goal with
         | H : between _ _ _ = true |- _ => apply between_true in H
         end.
  pose proof (days_in_month_le_31 (year d) (month d)).
  destruct d as [y mo dd h mi s us]. simpl in *.
  unfold parse_iso8601, isoformat. simpl.
  rewrite take_pad4 by lia. simpl.
  rewrite take_pad2 by lia. simpl.
  rewrite take_pad2 by lia. simpl.
  rewrite take_pad2 by lia. simpl.
  rewrite take_pad2 by lia. simpl.
  rewrite take_pad2 by lia. simpl.
  destruct (Z.eqb_spec us 0) as [-> | Hus].
  - simpl. rewrite Hv. reflexivity.
  - unfold parse_fraction. simpl.
    rewrite <- (app_nil_r (pad6 us)), take_pad6 by lia. simpl.
    rewrite Hv. reflexivity.
Qed.

End Timestamp.

(** C6. [GET /health] answers 200 with the body
    [{"status": "healthy", "timestamp": <now in ISO format>}] and leaves
    the state as it is; the timestamp reads back, as ISO-8601, to the
    clock value it was made from; and the answer is the same whatever the
    global [model] holds. *)
Theorem health_check_healthy :
  forall w : world,
    valid_datetime (clock w) = true ->
    serve health_check w
    = ({| status := 200;
          body := VDict [(of_ascii "status", VStr (of_ascii "healthy"));
                         (of_ascii "timestamp", VStr (isoformat (clock w)))] |},
       w)
    /\ parse_iso8601 (isoformat (clock w)) = Some (clock w)
    /\ forall m : option classifier,
         fst (serve health_check (with_model w m)) = fst (serve health_check w).
Proof.
  intros w Hv. repeat split.
  - apply parse_isoformat, Hv.
Qed.

Lemma health_check_healthy_witness :
  serve health_check w_unloaded
  = ({| status := 200;
        body := VDict [(of_ascii "status", VStr (of_ascii "healthy"));
                       (of_ascii "timestamp",
                        VStr (isoformat (clock w_unloaded)))] |},
     w_unloaded)
  /\ parse_iso8601 (isoformat (clock w_unloaded)) = Some (clock w_unloaded)
  /\ forall m : option classifier,
       fst (serve health_check (with_model w_unloaded m))
       = fst (serve health_check w_unloaded).
Proof.
  apply (health_check_healthy w_unloaded). vm_compute. reflexivity.
Defined.

(** The timestamp of the sample state, written out. *)
Example isoformat_sample :
  isoformat (clock w_unloaded) = of_ascii "2024-02-29T23:59:07.001500".
Proof. vm_compute. reflexivity. Qed.

(* ================================================================= *)
(** ** [GET /] *)

(** C7. [GET /] is deterministic and without effect: from any two states
    it gives the same answer, status 200 with the keys [message],
    [version] and [endpoints], the last one holding [identify_language],
    [health] and [docs]; and the state after the call is the state
    before it. *)
Theorem root_deterministic_no_effect :
  forall w1 w2 : world,
    fst (serve root w1) = fst (serve root w2)
    /\ snd (serve root w1) = w1
    /\ status (fst (serve root w1)) = 200
    /\ dict_keys (body (fst (serve root w1)))
       = [of_ascii "message"; of_ascii "version"; of_ascii "endpoints"]
    /\ option_map dict_keys (dict_get (of_ascii "endpoints") (body (fst (serve root w1))))
       = Some [of_ascii "identify_language"; of_ascii "health"; of_ascii "docs"].
Proof.
  intros w1 w2. repeat split.
Qed.

(* ================================================================= *)
(** ** [load_model] and the start-up *)

Section Loading.

Variable w : world.

(** The file is there and unpickles: the classifier is returned. *)
Lemma load_model_present (clf : classifier) :
  model_file w = Present (Returned clf) ->
  fst (load_model w) = Returned clf.
Proof.
  intro Hf. unfold_py. simpl. repeat (rewrite Hf; simpl). reflexivity.
Qed.

(** The file is there and [pickle.load] raises [e]: a [RuntimeError]
    that wraps [str(e)]. *)
Lemma load_model_corrupt (e : py_exn) :
  model_file w = Present (Raised e) ->
  fst (load_model w) = Raised (Exc RuntimeError (model_load_failure_msg e)).
Proof.
  intro Hf. unfold_py. simpl. repeat (rewrite Hf; simpl).
  rewrite ?isinstance_Exception. reflexivity.
Qed.

(** Whatever [load_model] raises is a [RuntimeError] built by its own
    [except] clause. *)
Lemma load_model_raises_only_RuntimeError (e : py_exn) :
  fst (load_model w) = Raised e ->
  exists cause, e = Exc RuntimeError (model_load_failure_msg cause).
Proof.
  unfold_py. simpl.
  destruct (model_file w) as [|[clf|e']] eqn:Hf; simpl;
    repeat (rewrite Hf; simpl); rewrite ?isinstance_Exception; simpl;
    intro H; try discriminate H; injection H as <-.
  - exists (Exc FileNotFoundError (model_not_found_msg w)). reflexivity.
  - exists e'. reflexivity.
Qed.

(** When [load_model] raises, so does the start-up, and the global
    [model] is left as it was: the server does not become ready. *)
Lemma startup_fails_with_load_model (e : py_exn) :
  fst (load_model w) = Raised e ->
  fst (lifespan_startup w) = Raised e
  /\ model (snd (lifespan_startup w)) = model w.
Proof.
  unfold lifespan_startup, bind. intro H.
  assert (Hm : model (snd (load_model w)) = model w).
  { clear H. unfold_py. simpl.
    destruct (model_file w) as [|[clf|e']] eqn:Hf; simpl;
      repeat (rewrite Hf; simpl); rewrite ?isinstance_Exception; reflexivity. }
  destruct (load_model w) as [o w']. simpl in *. subst o. simpl. auto.
Qed.

End Loading.

(** C8 (what the code does). With no file at [MODEL_PATH], the
    [FileNotFoundError] raised at line 43 is caught by the [except
    Exception] of the same function: [load_model] raises the
    [RuntimeError] "Impossibile caricare il modello: File del modello non
    trovato in: ...", the class it also raises when the file cannot be
    unpickled, and no [FileNotFoundError] ever leaves it. *)
Theorem load_model_missing_file_raises_RuntimeError :
  forall w : world,
    model_file w = Missing ->
    fst (load_model w)
    = Raised (Exc RuntimeError
                  (model_load_failure_msg
                     (Exc FileNotFoundError (model_not_found_msg w))))
    /\ (forall e, fst (load_model w) = Raised e ->
                  isinstance e FileNotFoundError = false)
    /\ (forall (w2 : world) (cause : py_exn),
          model_file w2 = Present (Raised cause) ->
          exists msg, fst (load_model w2) = Raised (Exc RuntimeError msg)).
Proof.
  intros w Hf. repeat split.
  - unfold_py. simpl. repeat (rewrite Hf; simpl). reflexivity.
  - intros e He. apply load_model_raises_only_RuntimeError in He as [c ->].
    reflexivity.
  - intros w2 cause Hc. eexists. apply load_model_corrupt; eassumption.
Qed.

Lemma load_model_missing_file_raises_RuntimeError_witness :
  fst (load_model w_unloaded)
  = Raised (Exc RuntimeError
                (model_load_failure_msg
                   (Exc FileNotFoundError (model_not_found_msg w_unloaded))))
  /\ (forall e, fst (load_model w_unloaded) = Raised e ->
                isinstance e FileNotFoundError = false)
  /\ (forall (w2 : world) (cause : py_exn),
        model_file w2 = Present (Raised cause) ->
        exists msg, fst (load_model w2) = Raised (Exc RuntimeError msg)).
Proof.
  apply (load_model_missing_file_raises_RuntimeError w_unloaded). reflexivity.
Defined.

(** The two failures side by side, evaluated. *)
Example load_model_same_class :
  (exists m1, fst (load_model w_unloaded) = Raised (Exc RuntimeError m1))
  /\ (exists m2, fst (load_model w_corrupt) = Raised (Exc RuntimeError m2)).
Proof. split; eexists; vm_compute; reflexivity. Qed.

(* ================================================================= *)
(** * Further properties of the handlers *)

#[local] Opaque of_ascii slice_to float_lit py_round2 fold_left.

Lemma serve_fst (handler : M py_value) (w : world) :
  fst (serve handler w) = respond (fst (handler w)).
Proof. unfold serve. destruct (handler w); reflexivity. Qed.

Lemma serve_snd (handler : M py_value) (w : world) :
  snd (serve handler w) = snd (handler w).
Proof. unfold serve. destruct (handler w); reflexivity. Qed.

(* ================================================================= *)
(** ** What [load_model] and the start-up write *)

(** X1. [load_model] only appends to the log and touches nothing else.
    When it returns, the value is the classifier unpickled from the file
    and the one record added is the INFO line of line 47.  When it raises,
    every record added is an ERROR, two of them when the file is missing
    (lines 42 and 50) and one when the file is there and cannot be loaded,
    and the last record and the [RuntimeError] wrap the same cause. *)
Theorem load_model_log_discipline :
  forall w : world,
    exists added : list log_record,
      snd (load_model w) = with_log w (log w ++ added)
      /\ (forall clf, fst (load_model w) = Returned clf ->
            model_file w = Present (Returned clf)
            /\ added = [model_loaded_record])
      /\ (forall e, fst (load_model w) = Raised e ->
            Forall (fun r => lvl r = ERROR) added
            /\ List.length added = match model_file w with
                                   | Missing => 2%nat
                                   | Present _ => 1%nat
                                   end
            /\ exists cause,
                 e = Exc RuntimeError (model_load_failure_msg cause)
                 /\ last added model_loaded_record = load_error_record cause).
Proof.
  intro w. unfold_py. simpl.
  destruct (model_file w) as [|[clf|cause]] eqn:Hf; simpl;
    repeat (rewrite Hf; simpl); rewrite ?isinstance_Exception; simpl.
  - eexists. split; [rewrite <- app_assoc; reflexivity|].
    split; [discriminate|]. intros e He. injection He as <-.
    split; [repeat constructor|]. split; [reflexivity|].
    exists (Exc FileNotFoundError (model_not_found_msg w)). split; reflexivity.
  - eexists. split; [reflexivity|].
    split; [|discriminate]. intros c Hc. injection Hc as <-. split; reflexivity.
  - eexists. split; [reflexivity|].
    split; [discriminate|]. intros e He. injection He as <-.
    split; [repeat constructor|]. split; [reflexivity|].
    exists cause. split; reflexivity.
Qed.

(** X2. A start-up on a model file that unpickles to [clf] returns, binds
    the global [model] to [clf], and writes exactly the two INFO lines
    "Modello caricato con successo" and "API inizializzata e pronta", in
    that order; every request served afterwards is answered as by a state
    whose [model] is [clf]. *)
Theorem startup_installs_the_unpickled_model :
  forall (w : world) (clf : classifier),
    model_file w = Present (Returned clf) ->
    lifespan_startup w
    = (Returned tt,
       with_log (with_model w (Some clf))
                (log w ++ [model_loaded_record; api_ready_record]))
    /\ forall request : LanguageRequest,
         fst (post_identify_language request (snd (lifespan_startup w)))
         = fst (post_identify_language request (with_model w (Some clf))).
Proof.
  intros w clf Hf.
  assert (H : lifespan_startup w
              = (Returned tt,
                 with_log (with_model w (Some clf))
                          (log w ++ [model_loaded_record; api_ready_record]))).
  { unfold lifespan_startup. unfold_py. simpl. repeat (rewrite Hf; simpl).
    rewrite <- app_assoc. reflexivity. }
  split; [exact H|].
  intro request. rewrite H, !post_fst. f_equal.
  apply identify_language_outcome_indep. reflexivity.
Qed.

Lemma startup_installs_the_unpickled_model_witness :
  lifespan_startup (w_installed clf_it)
  = (Returned tt,
     with_log (with_model (w_installed clf_it) (Some clf_it))
              (log (w_installed clf_it) ++ [model_loaded_record; api_ready_record]))
  /\ forall request : LanguageRequest,
       fst (post_identify_language request
                  (snd (lifespan_startup (w_installed clf_it))))
       = fst (post_identify_language request
                    (with_model (w_installed clf_it) (Some clf_it))).
Proof.
  apply (startup_installs_the_unpickled_model (w_installed clf_it) clf_it).
  reflexivity.
Defined.

(** X3. A start-up on a missing or unloadable model file raises the
    [RuntimeError] of [load_model] and stops there: the global [model] is
    not assigned, the line "API inizializzata e pronta" is not written
    (the state is the one [load_model] left) and the classifier record is
    untouched. *)
Theorem startup_stops_at_a_failed_load :
  forall w : world,
    (forall clf, model_file w <> Present (Returned clf)) ->
    (exists msg, fst (lifespan_startup w) = Raised (Exc RuntimeError msg))
    /\ snd (lifespan_startup w) = snd (load_model w)
    /\ model (snd (lifespan_startup w)) = model w
    /\ calls (snd (lifespan_startup w)) = calls w
    /\ last (log (snd (lifespan_startup w))) api_ready_record <> api_ready_record.
Proof.
  intros w Hbad. unfold lifespan_startup. unfold_py. simpl.
  destruct (model_file w) as [|[clf|cause]] eqn:Hf; simpl;
    repeat (rewrite Hf; simpl); rewrite ?isinstance_Exception; simpl.
  - repeat split; try (eexists; reflexivity).
    rewrite last_last. discriminate.
  - exfalso. apply (Hbad clf). reflexivity.
  - repeat split; try (eexists; reflexivity).
    rewrite last_last. discriminate.
Qed.

Lemma startup_stops_at_a_failed_load_witness :
  (exists msg, fst (lifespan_startup w_corrupt) = Raised (Exc RuntimeError msg))
  /\ snd (lifespan_startup w_corrupt) = snd (load_model w_corrupt)
  /\ model (snd (lifespan_startup w_corrupt)) = model w_corrupt
  /\ calls (snd (lifespan_startup w_corrupt)) = calls w_corrupt
  /\ last (log (snd (lifespan_startup w_corrupt))) api_ready_record
     <> api_ready_record.
Proof.
  apply (startup_stops_at_a_failed_load w_corrupt).
  intros clf H. vm_compute in H. discriminate H.
Defined.

(* ================================================================= *)
(** ** Requests and the classifier *)

(** X4. While the global [model] is still [None], every non-blank request
    is answered 500 with the detail that wraps the failed attribute
    lookup on [None], and no classifier call is recorded. *)
Theorem request_without_model_gives_500 :
  forall (request : LanguageRequest) (w : world),
    ~ is_blank (text request) ->
    model w = None ->
    fst (post_identify_language request w)
    = error_response 500
        (prediction_failure_detail (no_attribute "NoneType" "predict"))
    /\ calls (snd (post_identify_language request w)) = calls w.
Proof.
  intros request w Hnb Hm. rewrite post_fst, post_snd.
  run_handler request Hnb. rewrite Hm. simpl.
  rewrite ?isinstance_Exception. split; reflexivity.
Qed.

Lemma request_without_model_gives_500_witness :
  fst (post_identify_language {| text := questo |} w_unloaded)
  = error_response 500
      (prediction_failure_detail (no_attribute "NoneType" "predict"))
  /\ calls (snd (post_identify_language {| text := questo |} w_unloaded))
     = calls w_unloaded.
Proof.
  apply (request_without_model_gives_500 {| text := questo |} w_unloaded).
  - intro H. apply blank_test_iff in H. vm_compute in H. discriminate.
  - reflexivity.
Defined.

(** The shape of every run of the handler: the log gains the record of
    the request and one more, whose level follows how the handler ends. *)
Lemma identify_language_run (request : LanguageRequest) (w : world) :
  exists (o : outcome py_value) (w' : world) (second : log_record),
    identify_language request w = (o, w')
    /\ log w' = (log w ++ [request_record request]) ++ [second]
    /\ lvl second = level_of_outcome o.
Proof.
  unfold_py; simpl.
  destruct (py_not (text request) || PyStr.eqb (strip (text request)) []);
    simpl.
  - do 3 eexists. split; [reflexivity|]. split; reflexivity.
  - repeat (break_inner; simpl; rewrite ?isinstance_Exception; simpl;
            same_classifier);
      (do 3 eexists; split; [reflexivity|]; split; reflexivity).
Qed.

(** X5. Every request to [/identify-language] appends exactly two records
    to the log and never removes one.  The first is the INFO record of the
    request, whose preview is the first [min 100 len] characters of the
    text.  The level of the second follows how the handler ended: INFO
    when it returned, WARNING when it raised the 400 error, ERROR when it
    raised a 500 error.  So a 200 comes with an INFO record, a 400 is
    what comes with a WARNING record, and an ERROR record comes with a
    500; the bare 500 of a response that fails validation comes with an
    INFO record, the handler having returned. *)
Theorem request_log_discipline :
  forall (request : LanguageRequest) (w : world),
    exists second : log_record,
      log (snd (post_identify_language request w))
      = log w ++ [request_record request; second]
      /\ lvl second = level_of_outcome (fst (identify_language request w))
      /\ (status (fst (post_identify_language request w)) = 200 ->
          lvl second = INFO)
      /\ (status (fst (post_identify_language request w)) = 400 <->
          lvl second = WARNING)
      /\ (lvl second = ERROR ->
          status (fst (post_identify_language request w)) = 500)
      /\ List.length (slice_to 100 (text request))
         = Nat.min 100 (List.length (text request)).
Proof.
  intros request w. rewrite post_fst, post_snd.
  destruct (identify_language_run request w) as (o & w' & second & Hrun & Hlog & Hlvl).
  exists second. rewrite Hrun in *. simpl fst. simpl snd.
  split; [rewrite Hlog, <- app_assoc; reflexivity|]. split; [exact Hlvl|].
  assert (Hlen : List.length (slice_to 100 (text request))
                 = Nat.min 100 (List.length (text request))).
  { Local Transparent slice_to. unfold slice_to. apply length_firstn.
    Local Opaque slice_to. }
  rewrite Hlvl.
  destruct (identify_language_ends request w)
    as [(label & c & w1 & H) | [(w1 & H) | (detail & w1 & H)]];
    rewrite Hrun in H; injection H as -> _.
  - rewrite response_dict_respond.
    destruct label; simpl; repeat split; trivial; discriminate.
  - simpl. repeat split; trivial; discriminate.
  - simpl. repeat split; trivial; discriminate.
Qed.

(** X6. A non-blank request on a loaded classifier calls [predict] once,
    on the list holding the one text, and then [predict_proba] at most
    once, on the same list: it does so exactly when [predict] returned
    (whatever it returned, an empty sequence included) and the classifier
    has the attribute.  Nothing else reaches the classifier. *)
Theorem request_call_discipline :
  forall (request : LanguageRequest) (w : world) (clf : classifier),
    ~ is_blank (text request) ->
    model w = Some clf ->
    calls (snd (post_identify_language request w))
    = calls w ++ calls_of_request clf (text request).
Proof.
  intros request w clf Hnb Hm. rewrite post_snd. unfold calls_of_request.
  run_handler request Hnb. rewrite Hm. simpl.
  destruct (predict clf [text request]) as [labels|e]; simpl;
    rewrite ?isinstance_Exception, ?Hm; simpl; [|reflexivity].
  destruct (predict_proba clf) as [proba|]; simpl.
  - repeat (break_inner; simpl; rewrite ?isinstance_Exception; simpl);
      rewrite <- app_assoc; reflexivity.
  - repeat (break_inner; simpl; rewrite ?isinstance_Exception; simpl);
      reflexivity.
Qed.

Lemma request_call_discipline_witness :
  calls (snd (post_identify_language {| text := questo |} (w_ready clf_it)))
  = calls (w_ready clf_it) ++ calls_of_request clf_it (text {| text := questo |}).
Proof.
  apply (request_call_discipline {| text := questo |} (w_ready clf_it) clf_it).
  - intro H. apply blank_test_iff in H. vm_compute in H. discriminate.
  - reflexivity.
Defined.

(** X7. The fallback is for [predict_proba] only.  Whatever [predict]
    raises, an [AttributeError] or a [NotImplementedError] included, the
    request is answered 500 with the detail that wraps the error, and
    [predict_proba] is not called. *)
Theorem predict_error_is_never_masked :
  forall (request : LanguageRequest) (w : world) (clf : classifier) (e : py_exn),
    ~ is_blank (text request) ->
    model w = Some clf ->
    predict clf [text request] = Raised e ->
    fst (post_identify_language request w)
    = error_response 500 (prediction_failure_detail e)
    /\ calls (snd (post_identify_language request w))
       = calls w ++ [CallPredict [text request]].
Proof.
  intros request w clf e Hnb Hm Hp. rewrite post_fst, post_snd.
  run_handler request Hnb. rewrite Hm. simpl. rewrite Hp. simpl.
  rewrite ?isinstance_Exception. split; reflexivity.
Qed.

Lemma predict_error_is_never_masked_witness :
  fst (post_identify_language {| text := questo |} (w_ready clf_abstract))
  = error_response 500 (prediction_failure_detail (Exc NotImplementedError []))
  /\ calls (snd (post_identify_language {| text := questo |}
                       (w_ready clf_abstract)))
     = calls (w_ready clf_abstract) ++ [CallPredict [text {| text := questo |}]].
Proof.
  apply (predict_error_is_never_masked {| text := questo |} (w_ready clf_abstract)
           clf_abstract (Exc NotImplementedError [])).
  - intro H. apply blank_test_iff in H. vm_compute in H. discriminate.
  - reflexivity.
  - reflexivity.
Defined.

(* ================================================================= *)
(** ** Which status a request gets *)

(** X8. Requests leave no trace that a later answer could depend on:
    after any sequence of requests the global [model] is the same, the
    log has grown by two records per request, and the next request is
    answered exactly as it would have been at the start. *)
Theorem answers_do_not_depend_on_history :
  forall (requests : list LanguageRequest) (next : LanguageRequest) (w : world),
    fst (post_identify_language next (serve_all requests w))
    = fst (post_identify_language next w)
    /\ model (serve_all requests w) = model w
    /\ List.length (log (serve_all requests w))
       = (List.length (log w) + 2 * List.length requests)%nat.
Proof.
  induction requests as [|r rs IH]; intros next w; simpl.
  - repeat split. lia.
  - destruct (IH next (snd (post_identify_language r w))) as (Hans & Hmodel & Hlog).
    rewrite Hans, Hmodel, Hlog, post_snd.
    split; [|split].
    + rewrite <- (post_snd r w).
      apply next_request_unaffected.
    + apply identify_language_keeps_model.
    + destruct (identify_language_run r w) as (o & w' & second & Hrun & Hl & _).
      rewrite Hrun. simpl. rewrite Hl, !length_app. simpl. lia.
Qed.

(** A text that is not blank is never answered 400. *)
Lemma nonblank_is_not_refused (request : LanguageRequest) (w : world) :
  py_not (text request) || PyStr.eqb (strip (text request)) [] = false ->
  status (respond_validated (fst (identify_language request w))) <> 400.
Proof.
  intro Ht. unfold_py; simpl. rewrite Ht.
  repeat (break_inner; simpl; rewrite ?isinstance_Exception; simpl;
          same_classifier);
    discriminate.
Qed.

(** X9. The endpoint answers 400 for the blank texts and for no other:
    a text with at least one character that is not white space is
    answered 200 or 500, never 400. *)
Theorem status_400_iff_blank :
  forall (request : LanguageRequest) (w : world),
    status (fst (post_identify_language request w)) = 400
    <-> is_blank (text request).
Proof.
  intros request w. rewrite post_fst. split.
  - intro Hs.
    destruct (py_not (text request) || PyStr.eqb (strip (text request)) [])
      eqn:Ht.
    + apply blank_test_iff, Ht.
    + exfalso. exact (nonblank_is_not_refused request w Ht Hs).
  - intro Hb. rewrite identify_language_blank by assumption. reflexivity.
Qed.

Ltac show_lacks :=
  unfold lacks_probability;
  match goal with
  | H : predict_proba _ = _ |- _ => rewrite H
  end;
  solve [ exact I | eauto ].

Lemma empty_text_msg_nonempty : empty_text_msg <> [].
Proof.
  Local Transparent of_ascii. unfold empty_text_msg. simpl. discriminate.
  Local Opaque of_ascii.
Qed.

Lemma prefixed_detail_nonempty (msg : py_str) :
  of_ascii "Errore durante l'identificazione della lingua: " ++ msg <> [].
Proof.
  change (of_ascii "Errore durante l'identificazione della lingua: ")
    with (69%N :: of_ascii "rrore durante l'identificazione della lingua: ").
  discriminate.
Qed.

(** Every exception that leaves the handler is its own [HTTPException]:
    the 400 with the fixed detail, or a 500 whose detail is the fixed
    prefix and the message of an exception raised under the outer [try]. *)
Lemma raised_is_http (request : LanguageRequest) (w : world) (e : py_exn) :
  fst (identify_language request w) = Raised e ->
  e = HTTPExc 400 empty_text_msg
  \/ exists msg,
       e = HTTPExc 500
             (of_ascii "Errore durante l'identificazione della lingua: " ++ msg).
Proof.
  unfold_py; simpl.
  destruct (py_not (text request) || PyStr.eqb (strip (text request)) []);
    simpl.
  - intro H. injection H as <-. left. reflexivity.
  - repeat (break_inner; simpl; rewrite ?isinstance_Exception; simpl;
            same_classifier);
      intro H; try discriminate H; injection H as <-;
      right; eexists; reflexivity.
Qed.

(** A value the handler returns is the [dict] of the first label of a
    loaded classifier, whose probability step did not fail. *)
Lemma returned_needs_classifier (request : LanguageRequest) (w : world)
      (v : py_value) :
  fst (identify_language request w) = Returned v ->
  exists clf label ls c,
    model w = Some clf
    /\ predict clf [text request] = Returned (label :: ls)
    /\ v = response_dict label c
    /\ (lacks_probability clf [text request]
        \/ exists proba x rest rows,
             predict_proba clf = Some proba
             /\ proba [text request] = Returned ((x :: rest) :: rows)).
Proof.
  unfold_py; simpl.
  destruct (py_not (text request) || PyStr.eqb (strip (text request)) []);
    simpl; [discriminate|].
  repeat (break_inner; simpl; rewrite ?isinstance_Exception; simpl;
          same_classifier);
    try discriminate; intro H; injection H as <-; subst;
    (do 4 eexists; split; [reflexivity|]; split; [eassumption|];
     split; [reflexivity|]);
    first [ left; show_lacks | right; eauto 10 ].
Qed.

(** X10. The endpoint answers 200 exactly when the text is not blank, a
    classifier is loaded, [predict] returns at least one label, the first
    label is a string, and the probability step does not fail: no
    probability is on offer, or the first row returned is not empty.
    Every other request gets 400 or 500. *)
Theorem status_200_iff_can_answer :
  forall (request : LanguageRequest) (w : world),
    status (fst (post_identify_language request w)) = 200
    <-> (~ is_blank (text request)
         /\ exists clf, model w = Some clf /\ can_answer clf (text request)).
Proof.
  intros request w. rewrite post_fst. split.
  - intro Hs.
    destruct (fst (identify_language request w)) as [v|e] eqn:Hrun.
    + split.
      * intro Hb. rewrite identify_language_blank in Hrun by assumption.
        discriminate Hrun.
      * destruct (returned_needs_classifier request w v Hrun)
          as (clf & label & ls & c & Hm & Hp & -> & Hprob).
        rewrite response_dict_respond in Hs.
        destruct label as [ | n | l | x | items ]; try discriminate Hs.
        exists clf. split; [exact Hm|]. split; [|exact Hprob].
        exists l, ls. exact Hp.
    + exfalso.
      destruct (raised_is_http request w e Hrun) as [-> | [msg ->]];
        discriminate Hs.
  - intros (Hnb & clf & Hm & (l & ls & Hp) & Hprob).
    destruct Hprob as [Hl | (proba & x & rest & rows & Hpp & Hr)].
    + rewrite (path_fallback request Hnb w clf Hm (VStr l) ls Hp Hl). reflexivity.
    + rewrite (path_max request Hnb w clf Hm (VStr l) ls proba x rest rows Hp Hpp Hr).
      reflexivity.
Qed.


